(** * isort/api.py: the streaming import-section engine and its entry points

    A shallow embedding of [src/isort/api.py] and the properties of its
    specification.  Python strings are [string]s of code points below 256;
    text streams are lists of lines; the local variables of [sort_imports]
    are one record threaded through the loop; loops whose termination is
    not structural take fuel. *)

From Stdlib Require Import String Ascii List Bool Arith ZArith Lia.
Import ListNotations.
Local Open Scope list_scope.
Local Open Scope string_scope.

(** ** Python [str] operations used by the module *)

Module PyStr.

Definition LF : ascii := "010"%char.
Definition CR : ascii := "013"%char.
Definition backslash : ascii := "092"%char.
Definition dquote : ascii := "034"%char.
Definition squote : ascii := "039"%char.
Definition hash : ascii := "035"%char.

Definition nl : string := String LF EmptyString.
Definition chr (c : ascii) : string := String c EmptyString.

(** [str.isspace] on one code point (the code points below 256). *)
Definition is_space (c : ascii) : bool :=
  let n := nat_of_ascii c in
  (((9 <=? n) && (n <=? 13)) || ((28 <=? n) && (n <=? 32))
   || (n =? 133) || (n =? 160))%nat.

(** Truthiness of a string: [bool(s)]. *)
Definition nonempty (s : string) : bool :=
  match s with EmptyString => false | String _ _ => true end.

Definition is_empty (s : string) : bool := negb (nonempty s).

(** [s.lstrip()] *)
Fixpoint lstrip (s : string) : string :=
  match s with
  | EmptyString => EmptyString
  | String c r => if is_space c then lstrip r else s
  end.

(** [s.rstrip()] *)
Fixpoint rstrip (s : string) : string :=
  match s with
  | EmptyString => EmptyString
  | String c r =>
      match rstrip r with
      | EmptyString => if is_space c then EmptyString else String c EmptyString
      | r' => String c r'
      end
  end.

(** [s.strip()] *)
Definition strip (s : string) : string := rstrip (lstrip s).

(** [c in chars] for a one-character [c]. *)
Fixpoint mem_char (c : ascii) (chars : string) : bool :=
  match chars with
  | EmptyString => false
  | String d r => Ascii.eqb c d || mem_char c r
  end.

(** [s.lstrip(chars)]: drops leading characters that occur in [chars]. *)
Fixpoint lstrip_chars (chars : string) (s : string) : string :=
  match s with
  | EmptyString => EmptyString
  | String c r => if mem_char c chars then lstrip_chars chars r else s
  end.

(** [s.startswith(p)] *)
Fixpoint startswith (s p : string) : bool :=
  match p with
  | EmptyString => true
  | String a p' =>
      match s with
      | EmptyString => false
      | String b s' => Ascii.eqb a b && startswith s' p'
      end
  end.

(** [s.startswith(tuple)] *)
Definition startswith_any (s : string) (ps : list string) : bool :=
  existsb (startswith s) ps.

(** [s.endswith(p)] *)
Fixpoint endswith (s p : string) : bool :=
  if String.eqb s p then true
  else match s with
       | EmptyString => false
       | String _ r => endswith r p
       end.

(** [sub in s] *)
Fixpoint contains (sub s : string) : bool :=
  if startswith s sub then true
  else match s with
       | EmptyString => false
       | String _ r => contains sub r
       end.

(** [x in l] for a list of strings. *)
Definition mem_string (x : string) (l : list string) : bool :=
  existsb (String.eqb x) l.

(** [s[-1]], defined for a non-empty [s] ([IndexError] otherwise). *)
Fixpoint last_char (s : string) : option string :=
  match s with
  | EmptyString => None
  | String c EmptyString => Some (chr c)
  | String _ r => last_char r
  end.

(** [s[:n]] for [0 <= n]. *)
Fixpoint take (n : nat) (s : string) : string :=
  match n, s with
  | S k, String c r => String c (take k r)
  | _, _ => EmptyString
  end.

(** [s[:-k]] for [0 <= k]: [s[:-0]] is [s[:0]], the empty string. *)
Definition slice_to_neg (k : nat) (s : string) : string :=
  match k with
  | O => EmptyString
  | _ => take (String.length s - k) s
  end.

(** [s.split("#")[0]] *)
Fixpoint before_hash (s : string) : string :=
  match s with
  | EmptyString => EmptyString
  | String c r => if Ascii.eqb c hash then EmptyString else String c (before_hash r)
  end.

(** [sep.join(l)] *)
Fixpoint join (sep : string) (l : list string) : string :=
  match l with
  | [] => EmptyString
  | [x] => x
  | x :: r => x ++ sep ++ join sep r
  end.

(** [s.split(sep)] for a non-empty [sep]; [skip] counts the characters of a
    separator just matched that are still to be passed over, [cur] is the
    piece being read. *)
Fixpoint split_from (sep : string) (skip : nat) (cur : string) (s : string)
  : list string :=
  match s with
  | EmptyString => [cur]
  | String c r =>
      match skip with
      | S k => split_from sep k cur r
      | O =>
          if startswith s sep
          then cur :: split_from sep (String.length sep - 1) EmptyString r
          else split_from sep 0 (cur ++ chr c) r
      end
  end.

(** [s.split(sep)]: [None] stands for [ValueError: empty separator]. *)
Definition split (sep s : string) : option (list string) :=
  match sep with
  | EmptyString => None
  | _ => Some (split_from sep 0 EmptyString s)
  end.

(** Line boundaries of [str.splitlines] below code point 256, [CR] apart. *)
Definition is_linebreak (c : ascii) : bool :=
  let n := nat_of_ascii c in
  ((n =? 10) || (n =? 11) || (n =? 12) || (n =? 28) || (n =? 29) || (n =? 30)
   || (n =? 133))%nat.

(** [s.splitlines(True)] *)
Fixpoint splitlines_from (cur : string) (s : string) : list string :=
  match s with
  | EmptyString => if nonempty cur then [cur] else []
  | String c r =>
      if Ascii.eqb c CR then
        match r with
        | String d r' =>
            if Ascii.eqb d LF
            then (cur ++ String CR nl) :: splitlines_from EmptyString r'
            else (cur ++ chr CR) :: splitlines_from EmptyString r
        | EmptyString => [cur ++ chr CR]
        end
      else if is_linebreak c then (cur ++ chr c) :: splitlines_from EmptyString r
      else splitlines_from (cur ++ chr c) r
  end.

Definition splitlines_keepends (s : string) : list string :=
  splitlines_from EmptyString s.

(** [textwrap.indent(text, prefix)] with its default predicate: the prefix
    goes in front of every line that does not consist of whitespace only. *)
Definition textwrap_indent (text prefix : string) : string :=
  String.concat EmptyString
    (map (fun line => if nonempty (strip line) then prefix ++ line else line)
         (splitlines_keepends text)).

(** The lines a [StringIO(text)] yields: each ends after a line feed, the
    last one where the text ends. *)
Fixpoint io_lines_from (cur : string) (s : string) : list string :=
  match s with
  | EmptyString => if nonempty cur then [cur] else []
  | String c r =>
      if Ascii.eqb c LF then (cur ++ nl) :: io_lines_from EmptyString r
      else io_lines_from (cur ++ chr c) r
  end.

Definition io_lines (text : string) : list string :=
  io_lines_from EmptyString text.

End PyStr.
Import PyStr.

(** ** Signals, results and the external collaborators *)

(** The exceptions the module raises or lets through. *)
Inductive exn : Type :=
| IndexError
| ValueError
| FileSkipSetting
| FileSkipComment
| ExistingSyntaxErrors
| IntroducedSyntaxErrors.

(** What a call does: it returns, it raises, or the fuel given to its loops
    ran out before it did either. *)
Inductive outcome (A : Type) : Type :=
| Returns (a : A)
| Raises (e : exn)
| OutOfFuel.
Arguments Returns {A} a.
Arguments Raises {A} e.
Arguments OutOfFuel {A}.

Definition bind {A B : Type} (m : outcome A) (k : A -> outcome B) : outcome B :=
  match m with
  | Returns a => k a
  | Raises e => Raises e
  | OutOfFuel => OutOfFuel
  end.

Notation "x <- m ;; k" := (bind m (fun x => k))
  (at level 61, m at next level, right associativity).

(** What the built-in [compile] does with a text: it returns a code object,
    which the module drops; it raises [SyntaxError]; or it raises
    [ValueError], as the interpreters before 3.12 do on a text that holds a
    null character. *)
Inductive compiled : Type :=
| Compiled
| SyntaxError
| NullCharacter.

Module settings.

(** The fields and the one method of [settings.Config] that [api.py] reads.
    [import_headings] holds the values of the mapping, in its order. *)
Record Config : Type := {
  line_ending : string;
  add_imports : list string;
  import_headings : list string;
  force_adds : bool;
  atomic : bool;
  ignore_whitespace : bool;
  verbose : bool;
  is_skipped : string -> bool
}.

End settings.

(** The parts of the package that [api.py] imports and calls.  They are not
    part of this module and are taken as they come:
    [sorted_section config extension text] is
    [output.sorted_imports(parse.file_contents(text, config=config), config, extension)];
    [compile text] is what the built-in [compile] does with [text] in exec
    mode; [Config_new kwargs] is the [Config] built from the keyword arguments
    [kwargs]. *)
Record Collaborators : Type := {
  format_natural : string -> string;
  sorted_section : settings.Config -> string -> string -> string;
  FILE_SKIP_COMMENTS : list string;
  compile : string -> compiled;
  remove_whitespace : string -> string -> string;
  infer_line_separator : string -> string;
  Config_new : list (string * string) -> settings.Config
}.

Definition triple (c : ascii) : string := String c (String c (String c EmptyString)).

Definition IMPORT_START_IDENTIFIERS : list string :=
  ["from "; "from.import"; "import "; "import*"].

Definition COMMENT_INDICATORS : list string :=
  [triple dquote; triple squote; chr squote; chr dquote; chr hash].

(** ** The local variables of [sort_imports] *)

(** One record for the variables that live across iterations, with the text
    written to [output_stream] so far.  [sort_calls] is not a variable of the
    source: it records, in order, each text handed to the sort contract. *)
Record Scan : Type := {
  line_separator : string;
  add_imports : list string;
  import_section : string;
  in_quote : string;
  first_comment_index_start : Z;
  first_comment_index_end : Z;
  contains_imports : bool;
  in_top_comment : bool;
  first_import_section : bool;
  indent : string;
  isort_off : bool;
  output_stream : string;
  sort_calls : list string
}.

Definition set_line_separator (v : string) (s : Scan) : Scan :=
  {| line_separator := v; add_imports := add_imports s;
     import_section := import_section s; in_quote := in_quote s;
     first_comment_index_start := first_comment_index_start s;
     first_comment_index_end := first_comment_index_end s;
     contains_imports := contains_imports s; in_top_comment := in_top_comment s;
     first_import_section := first_import_section s; indent := indent s;
     isort_off := isort_off s; output_stream := output_stream s;
     sort_calls := sort_calls s |}.

Definition set_add_imports (v : list string) (s : Scan) : Scan :=
  {| line_separator := line_separator s; add_imports := v;
     import_section := import_section s; in_quote := in_quote s;
     first_comment_index_start := first_comment_index_start s;
     first_comment_index_end := first_comment_index_end s;
     contains_imports := contains_imports s; in_top_comment := in_top_comment s;
     first_import_section := first_import_section s; indent := indent s;
     isort_off := isort_off s; output_stream := output_stream s;
     sort_calls := sort_calls s |}.

Definition set_import_section (v : string) (s : Scan) : Scan :=
  {| line_separator := line_separator s; add_imports := add_imports s;
     import_section := v; in_quote := in_quote s;
     first_comment_index_start := first_comment_index_start s;
     first_comment_index_end := first_comment_index_end s;
     contains_imports := contains_imports s; in_top_comment := in_top_comment s;
     first_import_section := first_import_section s; indent := indent s;
     isort_off := isort_off s; output_stream := output_stream s;
     sort_calls := sort_calls s |}.

Definition set_in_quote (v : string) (s : Scan) : Scan :=
  {| line_separator := line_separator s; add_imports := add_imports s;
     import_section := import_section s; in_quote := v;
     first_comment_index_start := first_comment_index_start s;
     first_comment_index_end := first_comment_index_end s;
     contains_imports := contains_imports s; in_top_comment := in_top_comment s;
     first_import_section := first_import_section s; indent := indent s;
     isort_off := isort_off s; output_stream := output_stream s;
     sort_calls := sort_calls s |}.

Definition set_first_comment_index_start (v : Z) (s : Scan) : Scan :=
  {| line_separator := line_separator s; add_imports := add_imports s;
     import_section := import_section s; in_quote := in_quote s;
     first_comment_index_start := v;
     first_comment_index_end := first_comment_index_end s;
     contains_imports := contains_imports s; in_top_comment := in_top_comment s;
     first_import_section := first_import_section s; indent := indent s;
     isort_off := isort_off s; output_stream := output_stream s;
     sort_calls := sort_calls s |}.

Definition set_first_comment_index_end (v : Z) (s : Scan) : Scan :=
  {| line_separator := line_separator s; add_imports := add_imports s;
     import_section := import_section s; in_quote := in_quote s;
     first_comment_index_start := first_comment_index_start s;
     first_comment_index_end := v;
     contains_imports := contains_imports s; in_top_comment := in_top_comment s;
     first_import_section := first_import_section s; indent := indent s;
     isort_off := isort_off s; output_stream := output_stream s;
     sort_calls := sort_calls s |}.

Definition set_contains_imports (v : bool) (s : Scan) : Scan :=
  {| line_separator := line_separator s; add_imports := add_imports s;
     import_section := import_section s; in_quote := in_quote s;
     first_comment_index_start := first_comment_index_start s;
     first_comment_index_end := first_comment_index_end s;
     contains_imports := v; in_top_comment := in_top_comment s;
     first_import_section := first_import_section s; indent := indent s;
     isort_off := isort_off s; output_stream := output_stream s;
     sort_calls := sort_calls s |}.

Definition set_in_top_comment (v : bool) (s : Scan) : Scan :=
  {| line_separator := line_separator s; add_imports := add_imports s;
     import_section := import_section s; in_quote := in_quote s;
     first_comment_index_start := first_comment_index_start s;
     first_comment_index_end := first_comment_index_end s;
     contains_imports := contains_imports s; in_top_comment := v;
     first_import_section := first_import_section s; indent := indent s;
     isort_off := isort_off s; output_stream := output_stream s;
     sort_calls := sort_calls s |}.

Definition set_first_import_section (v : bool) (s : Scan) : Scan :=
  {| line_separator := line_separator s; add_imports := add_imports s;
     import_section := import_section s; in_quote := in_quote s;
     first_comment_index_start := first_comment_index_start s;
     first_comment_index_end := first_comment_index_end s;
     contains_imports := contains_imports s; in_top_comment := in_top_comment s;
     first_import_section := v; indent := indent s;
     isort_off := isort_off s; output_stream := output_stream s;
     sort_calls := sort_calls s |}.

Definition set_indent (v : string) (s : Scan) : Scan :=
  {| line_separator := line_separator s; add_imports := add_imports s;
     import_section := import_section s; in_quote := in_quote s;
     first_comment_index_start := first_comment_index_start s;
     first_comment_index_end := first_comment_index_end s;
     contains_imports := contains_imports s; in_top_comment := in_top_comment s;
     first_import_section := first_import_section s; indent := v;
     isort_off := isort_off s; output_stream := output_stream s;
     sort_calls := sort_calls s |}.

Definition set_isort_off (v : bool) (s : Scan) : Scan :=
  {| line_separator := line_separator s; add_imports := add_imports s;
     import_section := import_section s; in_quote := in_quote s;
     first_comment_index_start := first_comment_index_start s;
     first_comment_index_end := first_comment_index_end s;
     contains_imports := contains_imports s; in_top_comment := in_top_comment s;
     first_import_section := first_import_section s; indent := indent s;
     isort_off := v; output_stream := output_stream s;
     sort_calls := sort_calls s |}.

(** [output_stream.write(text)] *)
Definition write (text : string) (s : Scan) : Scan :=
  {| line_separator := line_separator s; add_imports := add_imports s;
     import_section := import_section s; in_quote := in_quote s;
     first_comment_index_start := first_comment_index_start s;
     first_comment_index_end := first_comment_index_end s;
     contains_imports := contains_imports s; in_top_comment := in_top_comment s;
     first_import_section := first_import_section s; indent := indent s;
     isort_off := isort_off s; output_stream := output_stream s ++ text;
     sort_calls := sort_calls s |}.

(** Records that [text] goes to the sort contract. *)
Definition note_sort_call (text : string) (s : Scan) : Scan :=
  {| line_separator := line_separator s; add_imports := add_imports s;
     import_section := import_section s; in_quote := in_quote s;
     first_comment_index_start := first_comment_index_start s;
     first_comment_index_end := first_comment_index_end s;
     contains_imports := contains_imports s; in_top_comment := in_top_comment s;
     first_import_section := first_import_section s; indent := indent s;
     isort_off := isort_off s; output_stream := output_stream s;
     sort_calls := (sort_calls s ++ [text])%list |}.

(** ** The streaming engine: [sort_imports] *)

Section Engine.

Variable ext : Collaborators.
Variable config : settings.Config.
Variable extension : string.

(** [section_comments], line 158. *)
Definition section_comments : list string :=
  map (fun heading => "# " ++ heading) (settings.import_headings config).

(** The state before the first line, lines 149-160. *)
Definition initial : Scan :=
  {| line_separator := settings.line_ending config;
     add_imports := map (format_natural ext) (settings.add_imports config);
     import_section := "";
     in_quote := "";
     first_comment_index_start := (-1)%Z;
     first_comment_index_end := (-1)%Z;
     contains_imports := false;
     in_top_comment := false;
     first_import_section := true;
     indent := "";
     isort_off := false;
     output_stream := "";
     sort_calls := [] |}.

(** Lines 176-185: entering and leaving the comment at the top of the file. *)
Definition track_top_comment (index : Z) (stripped_line line : string) (s : Scan)
  : Scan :=
  if ((index =? 0)%Z || ((index =? 1)%Z && negb (contains_imports s)))
     && startswith stripped_line "#"
     && negb (mem_string stripped_line section_comments)
  then set_in_top_comment true s
  else if in_top_comment s then
    if negb (startswith line "#") || mem_string stripped_line section_comments
    then set_first_comment_index_end (index - 1)%Z (set_in_top_comment false s)
    else s
  else s.

(** Lines 193-210, the walk over the characters of a line.  [rest] is the
    line from [char_index] on; [skip] is how far [char_index] was moved
    beyond the next character: one after a backslash, two after the opening
    of a triple quote.  [fstart] is [first_comment_index_start], which the
    walk reads and leaves alone. *)
Fixpoint scan_quotes (index fstart : Z) (skip : nat) (quote : string) (fend : Z)
  (rest : string) : string * Z :=
  match rest with
  | EmptyString => (quote, fend)
  | String c r =>
      match skip with
      | S k => scan_quotes index fstart k quote fend r
      | O =>
          if Ascii.eqb c backslash then scan_quotes index fstart 1 quote fend r
          else if nonempty quote then
            if startswith rest quote
            then scan_quotes index fstart 0 ""
                   (if (fend <? fstart)%Z then index else fend) r
            else scan_quotes index fstart 0 quote fend r
          else if Ascii.eqb c squote || Ascii.eqb c dquote then
            let long_quote := take 3 rest in
            if mem_string long_quote [triple dquote; triple squote]
            then scan_quotes index fstart 2 long_quote fend r
            else scan_quotes index fstart 0 (chr c) fend r
          else if Ascii.eqb c hash then (quote, fend)
          else scan_quotes index fstart 0 quote fend r
      end
  end.

(** Lines 187-210. *)
Definition track_quotes (index : Z) (stripped_line line : string) (s : Scan)
  : Scan :=
  if ((negb (startswith stripped_line "#") || nonempty (in_quote s))
      && contains (chr dquote) line)
     || contains (chr squote) line
  then
    let s1 :=
      if (first_comment_index_start s =? -1)%Z
         && (startswith line (chr dquote) || startswith line (chr squote))
      then set_first_comment_index_start index s
      else s in
    let '(quote, fend) :=
      scan_quotes index (first_comment_index_start s1) 0 (in_quote s1)
        (first_comment_index_end s1) line in
    set_first_comment_index_end fend (set_in_quote quote s1)
  else s.

(** [input_stream.readline()]: the next line, or the empty string once the
    stream is at its end. *)
Definition readline (input_stream : list string) : string * list string :=
  match input_stream with
  | [] => ("", [])
  | line :: rest => (line, rest)
  end.

(** What the continuation loops work on: [line], [stripped_line],
    [import_section] and the stream. *)
Definition Pull : Type := (string * string * string * list string)%type.

(** Lines 234-237. *)
Fixpoint backslash_lines (fuel : nat) (line stripped_line section : string)
  (input_stream : list string) : outcome Pull :=
  match fuel with
  | O => OutOfFuel
  | S fuel' =>
      if nonempty stripped_line && endswith stripped_line (chr backslash) then
        let '(line', rest) := readline input_stream in
        backslash_lines fuel' line' (before_hash (strip line')) (section ++ line') rest
      else Returns (line, stripped_line, section, input_stream)
  end.

(** Lines 239-242. *)
Fixpoint paren_lines (fuel : nat) (line stripped_line section : string)
  (input_stream : list string) : outcome Pull :=
  match fuel with
  | O => OutOfFuel
  | S fuel' =>
      if negb (contains ")" stripped_line) then
        let '(line', rest) := readline input_stream in
        paren_lines fuel' line' (before_hash (strip line')) (section ++ line') rest
      else Returns (line, stripped_line, section, input_stream)
  end.

(** Lines 230-242. *)
Fixpoint continuation (fuel : nat) (line stripped_line section : string)
  (input_stream : list string) : outcome Pull :=
  match fuel with
  | O => OutOfFuel
  | S fuel' =>
      if endswith stripped_line (chr backslash)
         || (contains "(" stripped_line && negb (contains ")" stripped_line))
      then
        pulled <- (if endswith stripped_line (chr backslash)
                   then backslash_lines fuel' line stripped_line section input_stream
                   else paren_lines fuel' line stripped_line section input_stream) ;;
        let '(line', stripped_line', section', rest) := pulled in
        continuation fuel' line' stripped_line' section' rest
      else Returns (line, stripped_line, section, input_stream)
  end.

(** Lines 212-244: the state after the line, [not_imports], and the stream. *)
Definition classify (fuel : nat) (line : string) (input_stream : list string)
  (s : Scan) : outcome (Scan * bool * list string) :=
  let not_imports := nonempty (in_quote s) || in_top_comment s || isort_off s in
  if negb (nonempty (in_quote s) || in_top_comment s) then
    let stripped_line := strip line in
    if isort_off s then
      if String.eqb stripped_line "# isort: on"
      then Returns (set_isort_off false s, not_imports, input_stream)
      else Returns (s, not_imports, input_stream)
    else if String.eqb stripped_line "# isort: off"
    then Returns (set_isort_off true s, true, input_stream)
    else if String.eqb stripped_line "# isort: split"
    then Returns (s, true, input_stream)
    else if is_empty stripped_line || startswith stripped_line "#"
    then Returns (set_import_section (import_section s ++ line) s,
                  not_imports, input_stream)
    else if startswith_any stripped_line IMPORT_START_IDENTIFIERS then
      let s1 := set_contains_imports true s in
      let s2 := set_indent (slice_to_neg (String.length (lstrip line)) line) s1 in
      pulled <- continuation fuel line stripped_line (import_section s2 ++ line)
                  input_stream ;;
      let '(_, _, section, rest) := pulled in
      Returns (set_import_section section s2, not_imports, rest)
    else Returns (s, true, input_stream)
  else Returns (s, not_imports, input_stream).

(** Truthiness of a list. *)
Definition some {A : Type} (l : list A) : bool :=
  match l with [] => false | _ :: _ => true end.

(** Lines 247-256: the additions become the section when there is none. *)
Definition inject_alone (line : string) (s : Scan) : Scan :=
  if some (add_imports s)
     && negb (in_top_comment s)
     && negb (nonempty (in_quote s))
     && negb (nonempty (import_section s))
     && negb (startswith_any (lstrip line) COMMENT_INDICATORS)
  then
    set_add_imports []
      (set_contains_imports true
         (set_import_section
            (join (line_separator s) (add_imports s) ++ line_separator s) s))
  else s.

(** Lines 259-262: the additions join an unindented section. *)
Definition inject_into_section (s : Scan) : Scan :=
  if some (add_imports s) && negb (nonempty (indent s)) then
    set_add_imports []
      (set_contains_imports true
         (set_import_section
            (import_section s ++ join (line_separator s) (add_imports s)
               ++ line_separator s) s))
  else s.

(** Lines 269-273. *)
Definition strip_first_section (s : Scan) : Scan :=
  if first_import_section s
     && negb (startswith_any (lstrip_chars (line_separator s) (import_section s))
                COMMENT_INDICATORS)
  then set_first_import_section false
         (set_import_section (lstrip_chars (line_separator s) (import_section s)) s)
  else s.

(** Lines 275-278. *)
Definition dedent_section (s : Scan) : outcome Scan :=
  if nonempty (indent s) then
    match split (line_separator s) (import_section s) with
    | None => Raises ValueError
    | Some pieces =>
        Returns (set_import_section (join (line_separator s) (map lstrip pieces)) s)
    end
  else Returns s.

(** Lines 269-287. *)
Definition write_sorted (s : Scan) : outcome Scan :=
  s1 <- dedent_section (strip_first_section s) ;;
  let sorted_import_section :=
    sorted_section ext config extension (import_section s1) in
  let sorted_import_section :=
    if nonempty (indent s1)
    then textwrap_indent sorted_import_section (indent s1) ++ line_separator s1
    else sorted_import_section in
  Returns (write sorted_import_section (note_sort_call (import_section s1) s1)).

(** Lines 246-297: what happens on a line with [not_imports] set. *)
Definition flush (line : string) (s : Scan) : outcome Scan :=
  let s1 := inject_alone line s in
  if nonempty (import_section s1) then
    let s2 := inject_into_section s1 in
    let s3 :=
      if negb (nonempty (indent s2))
      then set_import_section (import_section s2 ++ line) s2
      else s2 in
    s4 <- (if negb (contains_imports s3)
           then Returns (write (import_section s3) s3)
           else write_sorted s3) ;;
    let s5 := if nonempty (indent s4) then set_indent "" (write line s4) else s4 in
    Returns (set_import_section "" (set_contains_imports false s5))
  else Returns (write line s1).

(** Lines 172-173: without a configured line ending, the last character of
    the first line read is the line separator. *)
Definition settle_separator (line : string) (s : Scan) : outcome Scan :=
  if nonempty (line_separator s) then Returns s
  else match last_char line with
       | None => Raises IndexError
       | Some c => Returns (set_line_separator c s)
       end.

(** The state after lines 175-210, the scanner having read the line. *)
Definition scanned (index : Z) (line : string) (s : Scan) : Scan :=
  let stripped_line := strip line in
  track_quotes index stripped_line line
    (track_top_comment index stripped_line line s).

(** Lines 172-297 for one line of the stream. *)
Definition at_line (fuel : nat) (index : Z) (line : string)
  (input_stream : list string) (s : Scan) : outcome (Scan * list string) :=
  s1 <- settle_separator line s ;;
  classified <- classify fuel line input_stream (scanned index line s1) ;;
  let '(s4, not_imports, rest) := classified in
  if not_imports
  then s5 <- flush line s4 ;; Returns (s5, rest)
  else Returns (s4, rest).

(** Lines 163-170 and 246-297 for the [None] that ends the stream. *)
Definition at_end (index : Z) (s : Scan) : outcome Scan :=
  if (index =? 0)%Z && negb (settings.force_adds config) then Returns s
  else
    let s1 := if nonempty (line_separator s) then s else set_line_separator nl s in
    flush "" s1.

(** The loop of line 162. *)
Fixpoint sort_loop (fuel : nat) (index : Z) (input_stream : list string)
  (s : Scan) : outcome Scan :=
  match fuel with
  | O => OutOfFuel
  | S fuel' =>
      match input_stream with
      | [] => at_end index s
      | line :: rest =>
          stepped <- at_line fuel' index line rest s ;;
          let '(s', rest') := stepped in
          sort_loop fuel' (index + 1)%Z rest' s'
      end
  end.

(** The iterations of that loop on the lines of the stream, without the one
    for the [None] at its end: the number of the next iteration and the state
    it would start in. *)
Fixpoint read_lines (fuel : nat) (index : Z) (input_stream : list string)
  (s : Scan) : outcome (Z * Scan) :=
  match fuel with
  | O => OutOfFuel
  | S fuel' =>
      match input_stream with
      | [] => Returns (index, s)
      | line :: rest =>
          stepped <- at_line fuel' index line rest s ;;
          let '(s', rest') := stepped in
          read_lines fuel' (index + 1)%Z rest' s'
      end
  end.

(** [sort_imports(input_stream, output_stream, extension, config)]: the final
    state holds the text written to [output_stream]. *)
Definition sort_imports (fuel : nat) (input_stream : list string) : outcome Scan :=
  sort_loop fuel 0%Z input_stream initial.

End Engine.

(** ** The entry points: [_config], [sorted_imports], [check_imports] *)

Section Api.

Variable ext : Collaborators.

(** [_config(config=config, **config_kwargs)] with no [path]: lines 35-43.
    [is_default] says that [config is DEFAULT_CONFIG]; the keyword arguments
    are a list of names and values, empty when none is given.  With the
    [Config] comes whether it is still the default object. *)
Definition _config (config : settings.Config) (is_default : bool)
  (config_kwargs : list (string * string)) : outcome (settings.Config * bool) :=
  if some config_kwargs && negb is_default then Raises ValueError
  else if some config_kwargs then Returns (Config_new ext config_kwargs, false)
  else Returns (config, is_default).

(** Lines 56-62: the signal of the skip checks, if one is raised. *)
Definition skip_signal (config : settings.Config) (file_contents : string)
  (file_path : option string) (disregard_skip : bool) : option exn :=
  if negb disregard_skip then
    if match file_path with
       | Some path => settings.is_skipped config path
       | None => false
       end
    then Some FileSkipSetting
    else if existsb (fun file_skip_comment => contains file_skip_comment file_contents)
              (FILE_SKIP_COMMENTS ext)
    then Some FileSkipComment
    else None
  else None.

(** Lines 64-68 and 74-78: in atomic mode, [compile] on the text under
    [except SyntaxError], which turns that exception into [signal] and lets
    any other through. *)
Definition validated (config : settings.Config) (file_contents : string)
  (signal : exn) : outcome unit :=
  if settings.atomic config then
    match compile ext file_contents with
    | Compiled => Returns tt
    | SyntaxError => Raises signal
    | NullCharacter => Raises ValueError
    end
  else Returns tt.

(** [sorted_imports], lines 46-79.  [fuel] bounds the loops of the engine. *)
Definition sorted_imports (fuel : nat) (file_contents extension : string)
  (config : settings.Config) (is_default : bool) (file_path : option string)
  (disregard_skip : bool) (config_kwargs : list (string * string))
  : outcome string :=
  resolved <- _config config is_default config_kwargs ;;
  let config := fst resolved in
  match skip_signal config file_contents file_path disregard_skip with
  | Some signal => Raises signal
  | None =>
      before <- validated config file_contents ExistingSyntaxErrors ;;
      final <- sort_imports ext config extension fuel (io_lines file_contents) ;;
      let parsed_output := output_stream final in
      after <- validated config file_contents IntroducedSyntaxErrors ;;
      Returns parsed_output
  end.

(** [check_imports], lines 82-119; printing and the diff are left out. *)
Definition check_imports (fuel : nat) (file_contents extension : string)
  (config : settings.Config) (is_default : bool) (file_path : option string)
  (disregard_skip : bool) (config_kwargs : list (string * string))
  : outcome bool :=
  resolved <- _config config is_default config_kwargs ;;
  let '(config, is_default) := resolved in
  sorted_output <- sorted_imports fuel file_contents extension config is_default
                     file_path disregard_skip config_kwargs ;;
  let '(compare_in, compare_out) :=
    if settings.ignore_whitespace config then
      let line_separator :=
        if nonempty (settings.line_ending config) then settings.line_ending config
        else infer_line_separator ext file_contents in
      (strip (remove_whitespace ext file_contents line_separator),
       strip (remove_whitespace ext sorted_output line_separator))
    else (strip file_contents, strip sorted_output) in
  Returns (String.eqb compare_out compare_in).

End Api.

(** ** States the loop can be in *)

Section Reachable.

Variable ext : Collaborators.
Variable config : settings.Config.
Variable extension : string.

(** [reachable index s]: the loop of line 162 can begin its iteration number
    [index] in the state [s]. *)
Inductive reachable : Z -> Scan -> Prop :=
| reach_initial : reachable 0%Z (initial ext config)
| reach_line index s fuel line input_stream s' rest :
    reachable index s ->
    at_line ext config extension fuel index line input_stream s = Returns (s', rest) ->
    reachable (index + 1)%Z s'.

End Reachable.

(** What holds of the section buffer between two iterations: it is empty
    while a literal is open or sorting is off, it holds something when it is
    said to contain imports, and an indentation is only recorded for a section
    that contains imports; the line separator is known once a section or a
    literal is open. *)
Record consistent (s : Scan) : Prop := {
  quote_no_section : nonempty (in_quote s) = true -> import_section s = "";
  off_no_section : isort_off s = true -> import_section s = "";
  imports_in_section :
    contains_imports s = true -> nonempty (import_section s) = true;
  indent_of_imports : nonempty (indent s) = true -> contains_imports s = true;
  section_has_separator :
    nonempty (import_section s) = true -> nonempty (line_separator s) = true
}.

(** [s'] differs from [s] at most in what the scanner tracks: the quote, the
    top comment, the two comment indices and the off flag. *)
Record same_buffers (s s' : Scan) : Prop := {
  same_line_separator : line_separator s' = line_separator s;
  same_add_imports : add_imports s' = add_imports s;
  same_import_section : import_section s' = import_section s;
  same_contains_imports : contains_imports s' = contains_imports s;
  same_first_import_section : first_import_section s' = first_import_section s;
  same_indent : indent s' = indent s;
  same_output_stream : output_stream s' = output_stream s;
  same_sort_calls : sort_calls s' = sort_calls s
}.

(** A line of the stream that does not begin, once stripped, with one of the
    import identifiers. *)
Definition plain (line : string) : Prop :=
  nonempty line = true
  /\ startswith_any (strip line) IMPORT_START_IDENTIFIERS = false.

(** Nothing to add, no import seen, nothing sent to the sort contract, and
    the text read so far is what was written followed by what is buffered. *)
Definition verbatim (s : Scan) (read : string) : Prop :=
  add_imports s = [] /\ contains_imports s = false /\ nonempty (indent s) = false
  /\ sort_calls s = [] /\ output_stream s ++ import_section s = read.


(** A text of whitespace only, or the empty text. *)
Definition whitespace (text : string) : bool :=
  forallb is_space (list_ascii_of_string text).

(** C10 in its own words: two texts that differ only in leading or trailing
    whitespace, that is, one text with whitespace, possibly none, put before
    and after it, in two ways. *)
Definition same_but_for_outer_whitespace (a b : string) : Prop :=
  exists core before_a after_a before_b after_b,
    whitespace before_a = true /\ whitespace after_a = true
    /\ whitespace before_b = true /\ whitespace after_b = true
    /\ a = before_a ++ core ++ after_a
    /\ b = before_b ++ core ++ after_b.

(** ** Stand-ins for the collaborators, for closed examples *)

Module Stub.

(** A [Config] with every field at its empty value and no skip rule. *)
Definition DEFAULT_CONFIG : settings.Config :=
  {| settings.line_ending := "";
     settings.add_imports := [];
     settings.import_headings := [];
     settings.force_adds := false;
     settings.atomic := false;
     settings.ignore_whitespace := false;
     settings.verbose := false;
     settings.is_skipped := fun _ => false |}.

(** The same with statements to add. *)
Definition adding (additions : list string) (force : bool) : settings.Config :=
  {| settings.line_ending := "";
     settings.add_imports := additions;
     settings.import_headings := [];
     settings.force_adds := force;
     settings.atomic := false;
     settings.ignore_whitespace := false;
     settings.verbose := false;
     settings.is_skipped := fun _ => false |}.

(** The same with atomic mode, and the whitespace option of the check, set. *)
Definition atomically (ignore_whitespace : bool) : settings.Config :=
  {| settings.line_ending := "";
     settings.add_imports := [];
     settings.import_headings := [];
     settings.force_adds := false;
     settings.atomic := true;
     settings.ignore_whitespace := ignore_whitespace;
     settings.verbose := false;
     settings.is_skipped := fun _ => false |}.

(** Collaborators around a given sort contract: additions are taken as they
    are written, every text compiles, the skip markers are the two of
    [settings.py]. *)
Definition around (sorter : string -> string) : Collaborators :=
  {| format_natural := fun addition => addition;
     sorted_section := fun _ _ text => sorter text;
     FILE_SKIP_COMMENTS := ["isort:skip_file"; "isort: skip_file"];
     compile := fun _ => Compiled;
     remove_whitespace := fun content _ => content;
     infer_line_separator := fun _ => nl;
     Config_new := fun _ => DEFAULT_CONFIG |}.

(** The sort contract that returns its text unchanged: deterministic, and
    idempotent. *)
Definition unchanged : Collaborators := around (fun text => text).


(** A sort contract that shows what it was given, between brackets. *)
Definition bracketing : Collaborators := around (fun text => "[" ++ text ++ "]").

End Stub.

(** ** Streams of the examples *)

Module Sample.

(** A line: the text and a line feed. *)
Definition L (text : string) : string := text ++ nl.

(** The state after the lines given, under the default configuration and the
    sort contract that changes nothing. *)
Definition state_after (lines : list string) : Scan :=
  match read_lines Stub.unchanged Stub.DEFAULT_CONFIG "py" 20 0 lines
          (initial Stub.unchanged Stub.DEFAULT_CONFIG) with
  | Returns (_, s) => s
  | _ => initial Stub.unchanged Stub.DEFAULT_CONFIG
  end.

(** A literal is open: after a first line that assigns the opening of a
    triple-quoted string to [x]. *)
Definition in_literal : Scan := Eval vm_compute in state_after [L "x = '''"].


(** An indented import is buffered: after the lines [if x:] and
    [    import os]. *)
Definition indented_import_buffered : Scan :=
  Eval vm_compute in state_after [L "if x:"; L "    import os"].

(** The line [from a import (], whose parenthesis nothing closes. *)
Definition open_import : string := L "from a import (".

End Sample.
Import Sample.

(** ** The rest of the module: [_config] with a path, [sorted_file] *)

Module io.

(** What [File.read] returns, as far as [sorted_file] reads it: the path of
    the file, the directory it is in ([path.parent]), its decoded contents
    and its extension. *)
Record File : Type := {
  path : string;
  parent : string;
  contents : string;
  extension : string
}.

End io.

Section Files.

Variable ext : Collaborators.

(** [key in config_kwargs] *)
Definition has_key (key : string) (config_kwargs : list (string * string)) : bool :=
  existsb (fun item => String.eqb key (fst item)) config_kwargs.

(** [_config(path, config, **config_kwargs)], lines 24-43, with or without a
    path.  A path given with the default [Config] becomes the [settings_path]
    keyword argument unless a settings path or file is among them. *)
Definition _config_from (path : option string) (config : settings.Config)
  (is_default : bool) (config_kwargs : list (string * string))
  : outcome (settings.Config * bool) :=
  let config_kwargs :=
    match path with
    | Some path =>
        if is_default
           && negb (has_key "settings_path" config_kwargs)
           && negb (has_key "settings_file" config_kwargs)
        then (config_kwargs ++ [("settings_path", path)])%list
        else config_kwargs
    | None => config_kwargs
    end in
  if some config_kwargs && negb is_default then Raises ValueError
  else if some config_kwargs then Returns (Config_new ext config_kwargs, false)
  else Returns (config, is_default).

(** [sorted_file], lines 122-131.  [File_read] is [File.read]; what it raises
    goes through. *)
Definition sorted_file (File_read : string -> outcome io.File) (fuel : nat)
  (filename : string) (config : settings.Config) (is_default : bool)
  (config_kwargs : list (string * string)) : outcome string :=
  file_data <- File_read filename ;;
  resolved <- _config_from (Some (io.parent file_data)) config is_default [] ;;
  let '(config, is_default) := resolved in
  sorted_imports ext fuel (io.contents file_data) (io.extension file_data)
    config is_default (Some (io.path file_data)) false config_kwargs.

End Files.

(** The values [in_quote] takes: no literal, or the delimiter of the one that
    is open. *)
Definition quote_state (quote : string) : bool :=
  mem_string quote [""; chr squote; chr dquote; triple squote; triple dquote].

(** [s'] comes after [s]: what was written and what went to the sort
    contract are still there, in front of what came since, and the statements
    to add are as they were or gone. *)
Record grows (s s' : Scan) : Prop := {
  output_grows : exists written, output_stream s' = output_stream s ++ written;
  sort_calls_grow : exists calls, sort_calls s' = (sort_calls s ++ calls)%list;
  add_imports_kept : add_imports s' = add_imports s \/ add_imports s' = []
}.

(** ** Basic facts *)

Lemma append_nil_r (s : string) : s ++ "" = s.
Proof. induction s as [|c s IH]; cbn; [reflexivity | now rewrite IH]. Qed.

Lemma append_assoc (a b c : string) : (a ++ b) ++ c = a ++ b ++ c.
Proof. induction a as [|x a IH]; cbn; [reflexivity | now rewrite IH]. Qed.

Lemma nonempty_false (s : string) : nonempty s = false <-> s = "".
Proof. destruct s; cbn; split; congruence. Qed.

Lemma nonempty_true (s : string) : nonempty s = true <-> s <> "".
Proof. destruct s; cbn; split; congruence. Qed.

Lemma nonempty_append_l (a b : string) : nonempty a = true -> nonempty (a ++ b) = true.
Proof. destruct a; cbn; congruence. Qed.

Lemma nonempty_append_r (a b : string) : nonempty b = true -> nonempty (a ++ b) = true.
Proof. destruct a; cbn; auto. Qed.

(** ** Which exceptions the engine can raise *)

Section EngineRaises.

Variable ext : Collaborators.
Variable config : settings.Config.
Variable extension : string.

Lemma backslash_lines_no_raise fuel : forall line stripped section input e,
  backslash_lines fuel line stripped section input <> Raises e.
Proof.
  induction fuel as [|fuel IH]; intros; cbn; [discriminate|].
  destruct (nonempty stripped && endswith stripped (chr backslash)); [|discriminate].
  destruct (readline input); apply IH.
Qed.

Lemma paren_lines_no_raise fuel : forall line stripped section input e,
  paren_lines fuel line stripped section input <> Raises e.
Proof.
  induction fuel as [|fuel IH]; intros; cbn; [discriminate|].
  destruct (negb (contains ")" stripped)); [|discriminate].
  destruct (readline input); apply IH.
Qed.

Lemma continuation_no_raise fuel : forall line stripped section input e,
  continuation fuel line stripped section input <> Raises e.
Proof.
  induction fuel as [|fuel IH]; intros; cbn; [discriminate|].
  destruct (endswith stripped (chr backslash)
            || (contains "(" stripped && negb (contains ")" stripped))); [|discriminate].
  destruct (endswith stripped (chr backslash)).
  - destruct (backslash_lines fuel line stripped section input) as [[[[l st] sec] r]|e'|] eqn:E;
      cbn; [apply IH | | discriminate].
    now apply backslash_lines_no_raise in E.
  - destruct (paren_lines fuel line stripped section input) as [[[[l st] sec] r]|e'|] eqn:E;
      cbn; [apply IH | | discriminate].
    now apply paren_lines_no_raise in E.
Qed.

Lemma classify_no_raise fuel line input s e :
  classify fuel line input s <> Raises e.
Proof.
  unfold classify.
  repeat match goal with
         | |- (if ?b then _ else _) <> _ => destruct b
         end; try discriminate.
  destruct (continuation fuel line (strip line) _ input) as [[[[l st] sec] r]|e'|] eqn:E;
    cbn; try discriminate.
  now apply continuation_no_raise in E.
Qed.

Lemma flush_raises line s e :
  flush ext config extension line s = Raises e -> e = ValueError.
Proof.
  unfold flush, write_sorted, dedent_section.
  repeat match goal with
         | |- context [if ?b then _ else _] => destruct b; cbn
         | |- context [match split ?a ?b with _ => _ end] => destruct (split a b); cbn
         end; congruence.
Qed.

Lemma at_line_raises fuel index line input s e :
  at_line ext config extension fuel index line input s = Raises e ->
  e = IndexError \/ e = ValueError.
Proof.
  unfold at_line, settle_separator.
  destruct (nonempty (line_separator s)); cbn [bind].
  2: destruct (last_char line); cbn [bind]; [|intros [= <-]; now left].
  all: match goal with
       | |- context [classify ?f ?l ?i ?x] =>
           destruct (classify f l i x) as [[[s4 ni] r]|e'|] eqn:E; cbn
       end;
    try discriminate;
    try (now apply classify_no_raise in E);
    destruct ni; try discriminate;
    match goal with
    | |- context [flush ?a ?b ?c ?l ?x] =>
        destruct (flush a b c l x) eqn:F; cbn; try discriminate
    end;
    intros [= <-]; right; eapply flush_raises; eassumption.
Qed.

Lemma sort_loop_raises fuel : forall index input s e,
  sort_loop ext config extension fuel index input s = Raises e ->
  e = IndexError \/ e = ValueError.
Proof.
  induction fuel as [|fuel IH]; intros index input s e; cbn; [discriminate|].
  destruct input as [|line rest].
  - unfold at_end.
    destruct ((index =? 0)%Z && negb (settings.force_adds config)); [discriminate|].
    intros H; right; eapply flush_raises; eassumption.
  - destruct (at_line ext config extension fuel index line rest s) as [[s' r]|e'|] eqn:E;
      cbn; try discriminate.
    + apply IH.
    + intros [= <-]. eapply at_line_raises; eassumption.
Qed.

End EngineRaises.

(** ** The entry points *)

Section ApiFacts.

Variable ext : Collaborators.

Lemma sort_imports_raises config extension fuel input e :
  sort_imports ext config extension fuel input = Raises e ->
  e = IndexError \/ e = ValueError.
Proof. apply sort_loop_raises. Qed.

(** Past [_config] and the skip checks, [sorted_imports] is the engine
    between two validations of the same text. *)
Lemma sorted_imports_unfold fuel file_contents extension config is_default file_path
  disregard_skip config_kwargs config' is_default' :
  _config ext config is_default config_kwargs = Returns (config', is_default') ->
  sorted_imports ext fuel file_contents extension config is_default file_path
    disregard_skip config_kwargs =
  match skip_signal ext config' file_contents file_path disregard_skip with
  | Some signal => Raises signal
  | None =>
      before <- validated ext config' file_contents ExistingSyntaxErrors ;;
      final <- sort_imports ext config' extension fuel (io_lines file_contents) ;;
      after <- validated ext config' file_contents IntroducedSyntaxErrors ;;
      Returns (output_stream final)
  end.
Proof. intros H. unfold sorted_imports. rewrite H. reflexivity. Qed.

(** C6.  With the skip checks on, a text that holds one of the skip-file
    markers, or a path the configuration skips, makes [sorted_imports] raise
    one of the two skip signals, whatever the fuel given to the engine: the
    signal does not wait for any line to be read or sorted.  With
    [disregard_skip] neither signal is ever raised. *)
Theorem skip_requested fuel file_contents extension config is_default file_path
  disregard_skip config_kwargs config' is_default'
  (Hconfig : _config ext config is_default config_kwargs
             = Returns (config', is_default')) :
  (disregard_skip = false ->
   (exists path, file_path = Some path /\ settings.is_skipped config' path = true)
   \/ (exists marker, In marker (FILE_SKIP_COMMENTS ext)
                      /\ contains marker file_contents = true) ->
   sorted_imports ext fuel file_contents extension config is_default file_path
     disregard_skip config_kwargs = Raises FileSkipSetting
   \/ sorted_imports ext fuel file_contents extension config is_default file_path
        disregard_skip config_kwargs = Raises FileSkipComment)
  /\ (disregard_skip = true ->
      sorted_imports ext fuel file_contents extension config is_default file_path
        disregard_skip config_kwargs <> Raises FileSkipSetting
      /\ sorted_imports ext fuel file_contents extension config is_default file_path
           disregard_skip config_kwargs <> Raises FileSkipComment).
Proof.
  rewrite (sorted_imports_unfold _ _ _ _ _ _ _ _ _ _ Hconfig).
  split.
  - intros -> Hskip. unfold skip_signal. cbn [negb].
    destruct Hskip as [(path & -> & Hpath) | (marker & Hin & Hmarker)].
    + rewrite Hpath. now left.
    + destruct (match file_path with
                | Some path => settings.is_skipped config' path
                | None => false
                end); [now left|].
      assert (E : existsb (fun c => contains c file_contents) (FILE_SKIP_COMMENTS ext) = true)
        by (apply existsb_exists; eauto).
      rewrite E. now right.
  - intros ->. unfold skip_signal. cbn [negb].
    assert (N : forall e, e = FileSkipSetting \/ e = FileSkipComment ->
                (before <- validated ext config' file_contents ExistingSyntaxErrors ;;
                 final <- sort_imports ext config' extension fuel
                            (io_lines file_contents) ;;
                 after <- validated ext config' file_contents IntroducedSyntaxErrors ;;
                 Returns (output_stream final)) <> Raises e).
    { intros e He. unfold validated.
      destruct (settings.atomic config'), (compile ext file_contents); cbn [bind];
        try (destruct He; subst; discriminate);
        (destruct (sort_imports ext config' extension fuel (io_lines file_contents))
           as [final|e'|] eqn:E; cbn [bind]; try discriminate;
         intros [= ->]; apply sort_imports_raises in E;
         destruct He, E; subst; discriminate). }
    split; apply N; auto.
Qed.

End ApiFacts.

Lemma skip_requested_witness :
  sorted_imports Stub.unchanged 0 ("# isort: skip_file" ++ nl ++ "import b" ++ nl) "py"
    Stub.DEFAULT_CONFIG true None false [] = Raises FileSkipSetting
  \/ sorted_imports Stub.unchanged 0 ("# isort: skip_file" ++ nl ++ "import b" ++ nl) "py"
       Stub.DEFAULT_CONFIG true None false [] = Raises FileSkipComment.
Proof.
  apply (proj1 (skip_requested Stub.unchanged 0
                  ("# isort: skip_file" ++ nl ++ "import b" ++ nl) "py"
                  Stub.DEFAULT_CONFIG true None false [] Stub.DEFAULT_CONFIG true
                  eq_refl)).
  - reflexivity.
  - right. exists "isort: skip_file". split; [cbn; auto | reflexivity].
Defined.


(** ** Whitespace at the two ends of a text *)

Lemma whitespace_cons c text :
  whitespace (String c text) = is_space c && whitespace text.
Proof. reflexivity. Qed.

Lemma lstrip_whitespace a text : whitespace a = true -> lstrip (a ++ text) = lstrip text.
Proof.
  induction a as [|c a IH]; [reflexivity|].
  rewrite whitespace_cons. intros H. apply andb_prop in H. destruct H as [Hc Ha].
  cbn [append lstrip]. rewrite Hc. now apply IH.
Qed.

Lemma lstrip_blank b : whitespace b = true -> lstrip b = "".
Proof.
  induction b as [|c b IH]; [reflexivity|].
  rewrite whitespace_cons. intros H. apply andb_prop in H. destruct H as [Hc Hb].
  cbn [lstrip]. rewrite Hc. now apply IH.
Qed.

Lemma rstrip_blank b : whitespace b = true -> rstrip b = "".
Proof.
  induction b as [|c b IH]; [reflexivity|].
  rewrite whitespace_cons. intros H. apply andb_prop in H. destruct H as [Hc Hb].
  cbn [rstrip]. rewrite (IH Hb), Hc. reflexivity.
Qed.

Lemma rstrip_whitespace text b : whitespace b = true -> rstrip (text ++ b) = rstrip text.
Proof.
  intros Hb. induction text as [|c text IH]; cbn [append rstrip].
  - now apply rstrip_blank.
  - now rewrite IH.
Qed.

Lemma lstrip_append text b :
  whitespace b = true ->
  (lstrip text = "" /\ lstrip (text ++ b) = "")
  \/ lstrip (text ++ b) = lstrip text ++ b.
Proof.
  intros Hb. induction text as [|c text IH]; cbn [append lstrip].
  - left. split; [reflexivity | now apply lstrip_blank].
  - destruct (is_space c); [exact IH | now right].
Qed.

(** Whitespace around a text does not change what [strip] leaves of it. *)
Lemma strip_outer a text b :
  whitespace a = true -> whitespace b = true -> strip (a ++ text ++ b) = strip text.
Proof.
  intros Ha Hb. unfold strip. rewrite (lstrip_whitespace _ _ Ha).
  destruct (lstrip_append text b Hb) as [(E1 & E2) | E].
  - now rewrite E1, E2.
  - rewrite E. now apply rstrip_whitespace.
Qed.

Lemma lstrip_splits text :
  exists before, whitespace before = true /\ text = before ++ lstrip text.
Proof.
  induction text as [|c text (before & W & E)]; cbn [lstrip].
  - exists "". split; reflexivity.
  - destruct (is_space c) eqn:S.
    + exists (String c before). rewrite whitespace_cons, S, W.
      split; [reflexivity|]. cbn [append]. now f_equal.
    + exists "". split; reflexivity.
Qed.

Lemma rstrip_splits text :
  exists after, whitespace after = true /\ text = rstrip text ++ after.
Proof.
  induction text as [|c text (after & W & E)]; cbn [rstrip].
  - exists "". split; reflexivity.
  - destruct (rstrip text) as [|d kept] eqn:R.
    + cbn [append] in E. subst after.
      destruct (is_space c) eqn:S.
      * exists (String c text). rewrite whitespace_cons, S, W. split; reflexivity.
      * exists text. split; [exact W | reflexivity].
    + exists after. split; [exact W|]. cbn [append]. now f_equal.
Qed.

(** What [strip] takes away is whitespace, at the two ends. *)
Lemma strip_splits text :
  exists before after,
    whitespace before = true /\ whitespace after = true
    /\ text = before ++ strip text ++ after.
Proof.
  destruct (lstrip_splits text) as (before & Wb & Eb).
  destruct (rstrip_splits (lstrip text)) as (after & Wa & Ea).
  exists before, after. unfold strip. repeat split; try assumption.
  now rewrite <- Ea.
Qed.

(** The comparison of line 109 on two stripped texts. *)
Lemma compare_stripped (a b : string) :
  String.eqb (strip b) (strip a) = true <-> same_but_for_outer_whitespace a b.
Proof.
  rewrite String.eqb_eq. split.
  - intros E.
    destruct (strip_splits a) as (la & ta & Wla & Wta & Ea).
    destruct (strip_splits b) as (lb & tb & Wlb & Wtb & Eb).
    exists (strip a), la, ta, lb, tb. rewrite <- E at 2. auto 10.
  - intros (core & la & ta & lb & tb & Wla & Wta & Wlb & Wtb & -> & ->).
    now rewrite !strip_outer.
Qed.

(** C10.  [check_imports] answers by comparing the text given and the text
    sorted after taking the whitespace off both ends of each, with the
    whitespace option off as with it on (where [remove_whitespace] is applied
    to both first).  So, once [sorted_imports] has returned the sorted text,
    the answer is [True] exactly when the two texts compared are one text
    with whitespace, possibly none, before and after it: a sorted text that
    differs from the one given only in leading or trailing whitespace is
    reported as correctly sorted. *)
Theorem check_imports_strips (ext : Collaborators) fuel file_contents extension
  config is_default file_path disregard_skip config_kwargs config' is_default'
  sorted_output
  (Hconfig : _config ext config is_default config_kwargs
             = Returns (config', is_default'))
  (Hsorted : sorted_imports ext fuel file_contents extension config' is_default'
               file_path disregard_skip config_kwargs = Returns sorted_output) :
  (settings.ignore_whitespace config' = false ->
   exists verdict,
     check_imports ext fuel file_contents extension config is_default file_path
       disregard_skip config_kwargs = Returns verdict
     /\ (verdict = true
         <-> same_but_for_outer_whitespace file_contents sorted_output))
  /\ (settings.ignore_whitespace config' = true ->
      let line_separator :=
        if nonempty (settings.line_ending config') then settings.line_ending config'
        else infer_line_separator ext file_contents in
      exists verdict,
        check_imports ext fuel file_contents extension config is_default file_path
          disregard_skip config_kwargs = Returns verdict
        /\ (verdict = true
            <-> same_but_for_outer_whitespace
                  (remove_whitespace ext file_contents line_separator)
                  (remove_whitespace ext sorted_output line_separator))).
Proof.
  unfold check_imports. rewrite Hconfig. cbn [bind]. rewrite Hsorted. cbn [bind].
  split; intros ->; cbv zeta; eexists; (split; [reflexivity|]);
    apply compare_stripped.
Qed.

Lemma check_imports_strips_witness :
  check_imports Stub.unchanged 9 (nl ++ "import a" ++ nl) "py" Stub.DEFAULT_CONFIG
    true None false [] = Returns true.
Proof.
  assert (Hsorted : sorted_imports Stub.unchanged 9 (nl ++ "import a" ++ nl) "py"
                      Stub.DEFAULT_CONFIG true None false []
                    = Returns ("import a" ++ nl)) by (vm_compute; reflexivity).
  destruct (proj1 (check_imports_strips Stub.unchanged 9 (nl ++ "import a" ++ nl)
                     "py" Stub.DEFAULT_CONFIG true None false []
                     Stub.DEFAULT_CONFIG true ("import a" ++ nl) eq_refl Hsorted)
              eq_refl) as (verdict & E & V).
  rewrite E. f_equal. apply V.
  exists "import a", nl, nl, "", nl. repeat split; reflexivity.
Defined.

(** ** Reading the fields of an updated state *)

Ltac fields :=
  cbn [line_separator add_imports import_section in_quote
       first_comment_index_start first_comment_index_end contains_imports
       in_top_comment first_import_section indent isort_off output_stream
       sort_calls set_line_separator set_add_imports set_import_section
       set_in_quote set_first_comment_index_start set_first_comment_index_end
       set_contains_imports set_in_top_comment set_first_import_section
       set_indent set_isort_off write note_sort_call].

Tactic Notation "fields" "in" hyp(H) :=
  cbn [line_separator add_imports import_section in_quote
       first_comment_index_start first_comment_index_end contains_imports
       in_top_comment first_import_section indent isort_off output_stream
       sort_calls set_line_separator set_add_imports set_import_section
       set_in_quote set_first_comment_index_start set_first_comment_index_end
       set_contains_imports set_in_top_comment set_first_import_section
       set_indent set_isort_off write note_sort_call] in H.

(** ** The paths through [flush] *)

Section FlushPaths.

Variable ext : Collaborators.
Variable config : settings.Config.
Variable extension : string.

Lemma inject_alone_nothing_to_add line s :
  add_imports s = [] -> inject_alone line s = s.
Proof. intros H. unfold inject_alone. rewrite H. reflexivity. Qed.


Lemma inject_alone_section line s :
  nonempty (import_section s) = true -> inject_alone line s = s.
Proof.
  intros H. unfold inject_alone. rewrite H.
  now rewrite !andb_false_r, ?andb_false_l.
Qed.

Lemma inject_into_section_nothing_to_add s :
  add_imports s = [] -> inject_into_section s = s.
Proof. intros H. unfold inject_into_section. rewrite H. reflexivity. Qed.

Lemma inject_into_section_indented s :
  nonempty (indent s) = true -> inject_into_section s = s.
Proof.
  intros H. unfold inject_into_section. rewrite H. now rewrite andb_false_r.
Qed.

(** No section, nothing injected: the line is written as it is (line 296). *)
Lemma flush_no_section line s :
  nonempty (import_section s) = false ->
  inject_alone line s = s ->
  flush ext config extension line s = Returns (write line s).
Proof. intros Hsec Hinj. unfold flush. rewrite Hinj, Hsec. reflexivity. Qed.

(** A section without import statements is written as it is, with the line
    that ends it (lines 264-267). *)
Lemma flush_without_imports line s :
  nonempty (import_section s) = true ->
  add_imports s = [] ->
  contains_imports s = false ->
  nonempty (indent s) = false ->
  flush ext config extension line s =
  Returns (set_import_section "" (set_contains_imports false
             (write (import_section s ++ line)
                (set_import_section (import_section s ++ line) s)))).
Proof.
  intros Hsec Hadd Hcontains Hindent. unfold flush.
  rewrite (inject_alone_section _ _ Hsec), Hsec,
    (inject_into_section_nothing_to_add _ Hadd), Hindent.
  cbn [negb]. fields. rewrite Hcontains. cbn [negb bind]. fields.
  rewrite Hindent. reflexivity.
Qed.

(** An unindented section with import statements goes to the sort contract
    with the line that ends it (lines 264-287). *)
Lemma flush_unindented line s :
  nonempty (import_section s) = true ->
  add_imports s = [] ->
  contains_imports s = true ->
  nonempty (indent s) = false ->
  flush ext config extension line s =
  let s3 := strip_first_section (set_import_section (import_section s ++ line) s) in
  Returns (set_import_section "" (set_contains_imports false
             (write (sorted_section ext config extension (import_section s3))
                (note_sort_call (import_section s3) s3)))).
Proof.
  intros Hsec Hadd Hcontains Hindent. unfold flush.
  rewrite (inject_alone_section _ _ Hsec), Hsec,
    (inject_into_section_nothing_to_add _ Hadd), Hindent.
  cbn [negb]. fields. rewrite Hcontains. cbn [negb].
  unfold write_sorted, dedent_section.
  assert (Hi : indent (strip_first_section
                         (set_import_section (import_section s ++ line) s))
               = indent s).
  { unfold strip_first_section.
    destruct (first_import_section _ && _); reflexivity. }
  rewrite Hi, Hindent. cbn [bind]. fields. rewrite ?Hi, ?Hindent. reflexivity.
Qed.

(** An indented section: every piece between line separators loses its
    leading whitespace, the sort contract gets the result, and what it returns
    is indented again and followed by a line separator and by the line that
    ended the section (lines 269-291). *)
Lemma flush_indented line s pieces :
  nonempty (import_section s) = true ->
  contains_imports s = true ->
  nonempty (indent s) = true ->
  split (line_separator s) (import_section (strip_first_section s)) = Some pieces ->
  flush ext config extension line s =
  let s3 := strip_first_section s in
  let dedented := join (line_separator s) (map lstrip pieces) in
  Returns
    (set_import_section "" (set_contains_imports false (set_indent ""
       (write line
          (write (textwrap_indent (sorted_section ext config extension dedented)
                    (indent s) ++ line_separator s)
             (note_sort_call dedented (set_import_section dedented s3))))))).
Proof.
  intros Hsec Hcontains Hindent Hsplit. unfold flush.
  rewrite (inject_alone_section _ _ Hsec), Hsec,
    (inject_into_section_indented _ Hindent), Hindent.
  cbn [negb]. rewrite Hcontains. cbn [negb].
  unfold write_sorted, dedent_section.
  assert (Hi : indent (strip_first_section s) = indent s).
  { unfold strip_first_section. destruct (first_import_section _ && _); reflexivity. }
  assert (Hs : line_separator (strip_first_section s) = line_separator s).
  { unfold strip_first_section. destruct (first_import_section _ && _); reflexivity. }
  rewrite Hi, Hindent, Hs, Hsplit. cbn [bind]. fields.
  rewrite ?Hi, ?Hindent, ?Hs. reflexivity.
Qed.

(** With something to add, [flush] first makes it a section (lines 247-256)
    or puts it into the unindented section there is (lines 259-262), and goes
    on as it does with nothing to add. *)
Lemma flush_after_inject_alone line s :
  flush ext config extension line s
  = flush ext config extension line (inject_alone line s).
Proof.
  assert (H : inject_alone line (inject_alone line s) = inject_alone line s).
  { assert (C : add_imports (inject_alone line s) = [] \/ inject_alone line s = s).
    { unfold inject_alone.
      destruct (some (add_imports s) && _ && _ && _ && _); [now left | now right]. }
    destruct C as [C|C]; [now apply inject_alone_nothing_to_add | now rewrite !C]. }
  unfold flush. rewrite H. reflexivity.
Qed.


End FlushPaths.

(** ** The engine at the end of the stream *)

Lemma lstrip_chars_keeps (chars : string) (c : ascii) (r : string) :
  mem_char c chars = false -> lstrip_chars chars (String c r) = String c r.
Proof. intros H. cbn. now rewrite H. Qed.

(** C5.  On a stream without lines the engine writes nothing unless
    injection is forced.  When it is forced and [import os] is the one
    statement to add, the text written is [import os] and one line ending,
    given that the formatter and the sort contract leave that statement as it
    is (the line ending being the configured one, a line feed if none is, and
    not holding the letter the statement starts with). *)
Theorem empty_stream (ext : Collaborators) (config : settings.Config)
  (extension : string) (fuel : nat) :
  (settings.force_adds config = false ->
   exists final,
     sort_imports ext config extension (S fuel) [] = Returns final
     /\ output_stream final = "" /\ sort_calls final = [])
  /\ (settings.force_adds config = true ->
      settings.add_imports config = ["import os"] ->
      format_natural ext "import os" = "import os" ->
      forall sep,
        sep = (if nonempty (settings.line_ending config)
               then settings.line_ending config else nl) ->
        mem_char "i"%char sep = false ->
        sorted_section ext config extension ("import os" ++ sep) = "import os" ++ sep ->
        exists final,
          sort_imports ext config extension (S fuel) [] = Returns final
          /\ output_stream final = "import os" ++ sep).
Proof.
  split.
  - intros Hforce. exists (initial ext config).
    unfold sort_imports. cbn [sort_loop]. unfold at_end. rewrite Hforce.
    cbn. auto.
  - intros Hforce Hadd Hfmt sep Hsep Hi Hsort.
    unfold sort_imports. cbn [sort_loop]. unfold at_end. rewrite Hforce.
    cbn [Z.eqb andb negb].
    set (s1 := if nonempty (line_separator (initial ext config))
               then initial ext config
               else set_line_separator nl (initial ext config)).
    assert (Hs1 : s1 = set_line_separator sep (initial ext config)).
    { subst s1 sep. cbn [initial line_separator].
      destruct (nonempty (settings.line_ending config)) eqn:E; [|reflexivity].
      unfold set_line_separator, initial. cbn. reflexivity. }
    rewrite Hs1. clear s1 Hs1.
    set (s2 := set_add_imports [] (set_contains_imports true
                 (set_import_section ("import os" ++ sep)
                    (set_line_separator sep (initial ext config))))).
    assert (H1 : inject_alone "" (set_line_separator sep (initial ext config)) = s2).
    { unfold inject_alone, initial. fields. rewrite Hadd. cbn [map].
      rewrite Hfmt. reflexivity. }
    rewrite flush_after_inject_alone, H1.
    rewrite flush_unindented by reflexivity.
    cbv zeta.
    assert (H2 : strip_first_section
                   (set_import_section (import_section s2 ++ "") s2)
                 = set_first_import_section false
                     (set_import_section ("import os" ++ sep) s2)).
    { unfold strip_first_section, s2. fields. rewrite append_nil_r.
      unfold initial. fields.
      change ("import os" ++ sep) with (String "i" ("mport os" ++ sep)).
      rewrite (lstrip_chars_keeps _ _ _ Hi). reflexivity. }
    rewrite H2. fields. rewrite Hsort.
    eexists; split; [reflexivity|]. unfold s2, initial. fields. reflexivity.
Qed.

Lemma empty_stream_witness :
  (exists final,
     sort_imports Stub.unchanged Stub.DEFAULT_CONFIG "py" 1 [] = Returns final
     /\ output_stream final = "" /\ sort_calls final = [])
  /\ (exists final,
        sort_imports Stub.unchanged (Stub.adding ["import os"] true) "py" 1 []
        = Returns final
        /\ output_stream final = "import os" ++ nl).
Proof.
  split.
  - apply (proj1 (empty_stream Stub.unchanged Stub.DEFAULT_CONFIG "py" 0)).
    reflexivity.
  - apply (proj2 (empty_stream Stub.unchanged (Stub.adding ["import os"] true)
                    "py" 0)); reflexivity.
Defined.

(** ** A parenthesis left open at the end of the stream *)

Section OpenParenthesis.

Variable ext : Collaborators.
Variable config : settings.Config.
Variable extension : string.

(** At the end of the stream [readline] keeps returning the empty string,
    in which the loop of lines 239-242 finds no closing parenthesis. *)
Lemma paren_lines_at_end fuel : forall line stripped_line section,
  contains ")" stripped_line = false ->
  paren_lines fuel line stripped_line section [] = OutOfFuel.
Proof.
  induction fuel as [|fuel IH]; intros line stripped_line section H; cbn [paren_lines];
    [reflexivity|].
  rewrite H. cbn [negb readline]. apply IH. reflexivity.
Qed.

Lemma continuation_at_end fuel line stripped_line section :
  endswith stripped_line (chr backslash) = false ->
  contains "(" stripped_line = true ->
  contains ")" stripped_line = false ->
  continuation fuel line stripped_line section [] = OutOfFuel.
Proof.
  intros Hb Ho Hc. destruct fuel as [|fuel]; cbn [continuation]; [reflexivity|].
  rewrite Hb, Ho, Hc. cbn [orb andb negb].
  rewrite (paren_lines_at_end _ _ _ _ Hc). reflexivity.
Qed.

Lemma classify_open_import fuel s :
  nonempty (in_quote s) = false -> in_top_comment s = false -> isort_off s = false ->
  classify fuel open_import [] s = OutOfFuel.
Proof.
  intros Hq Ht Ho. unfold classify. rewrite Hq, Ht, Ho. cbn [orb negb].
  replace (strip open_import) with "from a import (" by reflexivity.
  cbn [String.eqb Ascii.eqb Bool.eqb is_empty nonempty negb startswith orb andb].
  replace (startswith_any "from a import (" IMPORT_START_IDENTIFIERS)
    with true by reflexivity.
  rewrite continuation_at_end by reflexivity. reflexivity.
Qed.

Lemma at_line_open_import fuel :
  at_line ext config extension fuel 0 open_import [] (initial ext config) = OutOfFuel.
Proof.
  unfold at_line.
  assert (H : forall s, nonempty (in_quote s) = false -> in_top_comment s = false ->
                        isort_off s = false ->
              (classified <- classify fuel open_import []
                               (scanned config 0 open_import s) ;;
               let '(s4, not_imports, rest) := classified in
               if not_imports
               then s5 <- flush ext config extension open_import s4 ;; Returns (s5, rest)
               else Returns (s4, rest)) = OutOfFuel).
  { intros s Hq Ht Ho. unfold scanned. cbv zeta.
    replace (strip open_import) with "from a import (" by reflexivity.
    unfold track_top_comment.
    replace (startswith "from a import (" "#") with false by reflexivity.
    rewrite andb_false_r. cbn [andb]. rewrite Ht.
    unfold track_quotes.
    replace (contains (chr dquote) open_import) with false by reflexivity.
    replace (contains (chr squote) open_import) with false by reflexivity.
    rewrite andb_false_r. cbn [orb].
    rewrite classify_open_import by assumption. reflexivity. }
  unfold settle_separator.
  destruct (nonempty (line_separator (initial ext config))); cbn [bind].
  - apply H; reflexivity.
  - replace (last_char open_import) with (Some nl) by reflexivity. cbn [bind].
    apply H; reflexivity.
Qed.

(** The loop of lines 234-237 does end at the end of the stream: the empty
    string [readline] returns there stops it. *)
Lemma backslash_lines_returns input : forall line stripped_line section,
  exists pulled,
    backslash_lines (S (S (List.length input))) line stripped_line section input
    = Returns pulled.
Proof.
  induction input as [|next rest IH]; intros line stripped_line section.
  - cbn [List.length backslash_lines].
    destruct (nonempty stripped_line && endswith stripped_line (chr backslash));
      [|eauto].
    cbn. eauto.
  - change (backslash_lines (S (S (List.length (next :: rest)))) line stripped_line
              section (next :: rest))
      with (if nonempty stripped_line && endswith stripped_line (chr backslash)
            then backslash_lines (S (S (List.length rest))) next
                   (before_hash (strip next)) (section ++ next) rest
            else Returns (line, stripped_line, section, next :: rest)).
    destruct (nonempty stripped_line && endswith stripped_line (chr backslash));
      eauto.
Qed.

End OpenParenthesis.

(** C8 (where the code departs from it).  On the one-line stream
    [from a import (] the engine does not terminate: whatever the
    collaborators, the configuration and the fuel, the fuel runs out in the
    loop that waits for a closing parenthesis. *)
Theorem open_parenthesis_at_end_of_stream (ext : Collaborators)
  (config : settings.Config) (extension : string) (fuel : nat) :
  sort_imports ext config extension fuel [open_import] = OutOfFuel.
Proof.
  unfold sort_imports. destruct fuel as [|fuel]; cbn [sort_loop]; [reflexivity|].
  rewrite at_line_open_import. reflexivity.
Qed.

(** ** Continuation lines *)

(** C4 (where the code departs from it).  The test of line 230 reads the
    import line with its comment, so a parenthesis that stands only in the
    trailing comment starts a continuation: the lines that follow, ordinary
    code, are pulled into the section up to one with a closing parenthesis,
    and all of it goes to the sort contract.  Without the parenthesis in the
    comment the section ends at the first line of code, and the lines after it
    are written as they are. *)
Theorem parenthesis_in_comment_starts_continuation (ext : Collaborators) :
  (exists final,
     sort_imports ext Stub.DEFAULT_CONFIG "py" 9
       [L "import os  # ("; L "x = 1"; L "y = (2)"; L "z = 3"] = Returns final
     /\ sort_calls final
        = [L "import os  # (" ++ L "x = 1" ++ L "y = (2)" ++ L "z = 3"]
     /\ output_stream final
        = sorted_section ext Stub.DEFAULT_CONFIG "py"
            (L "import os  # (" ++ L "x = 1" ++ L "y = (2)" ++ L "z = 3"))
  /\ (exists final,
        sort_imports ext Stub.DEFAULT_CONFIG "py" 9
          [L "import os  # c"; L "x = 1"; L "y = (2)"; L "z = 3"] = Returns final
        /\ sort_calls final = [L "import os  # c" ++ L "x = 1"]
        /\ output_stream final
           = sorted_section ext Stub.DEFAULT_CONFIG "py"
               (L "import os  # c" ++ L "x = 1") ++ L "y = (2)" ++ L "z = 3").
Proof.
  split; eexists; (split; [vm_compute; reflexivity|]);
    (split; [reflexivity|]); cbn [output_stream].
  - apply append_nil_r.
  - rewrite <- append_assoc. apply append_nil_r.
Qed.

(** The loop of lines 239-242 takes the lines up to and including the first
    whose text before any [#] holds a closing parenthesis. *)
Lemma paren_lines_pulls (before : list string) : forall closing rest line stripped_line
    section,
  contains ")" stripped_line = false ->
  Forall (fun l => contains ")" (before_hash (strip l)) = false) before ->
  contains ")" (before_hash (strip closing)) = true ->
  paren_lines (S (S (List.length before))) line stripped_line section
    (before ++ closing :: rest)%list
  = Returns (closing, before_hash (strip closing),
             section ++ String.concat "" before ++ closing, rest).
Proof.
  induction before as [|next before IH];
    intros closing rest line stripped_line section Hopen Hbefore Hclosing.
  - cbn [List.length app paren_lines String.concat readline].
    rewrite Hopen, Hclosing. reflexivity.
  - inversion Hbefore as [|? ? Hnext Hbefore']; subst.
    change (paren_lines (S (S (List.length (next :: before)))) line stripped_line
              section ((next :: before) ++ closing :: rest)%list)
      with (if negb (contains ")" stripped_line)
            then paren_lines (S (S (List.length before))) next
                   (before_hash (strip next)) (section ++ next)
                   (before ++ closing :: rest)%list
            else Returns (line, stripped_line, section,
                          ((next :: before) ++ closing :: rest)%list)).
    rewrite Hopen. cbn [negb].
    rewrite (IH closing rest next _ (section ++ next) Hnext Hbefore' Hclosing).
    rewrite append_assoc.
    destruct before; cbn [String.concat]; rewrite ?append_assoc; reflexivity.
Qed.

(** A parenthesised list over several lines is one section and reaches the
    sort contract whole, with the line that ends the section. *)
Example continuation_capture (ext : Collaborators) :
  exists final,
    sort_imports ext Stub.DEFAULT_CONFIG "py" 9
      [L "from a import ("; L "    b,"; L "    c,"; L ")"; L "x = 1"] = Returns final
    /\ sort_calls final
       = [L "from a import (" ++ L "    b," ++ L "    c," ++ L ")" ++ L "x = 1"].
Proof. eexists; split; [vm_compute; reflexivity | reflexivity]. Qed.

(** ** One line at a time *)

Lemma same_buffers_refl s : same_buffers s s.
Proof. split; reflexivity. Qed.

Lemma same_buffers_trans s1 s2 s3 :
  same_buffers s1 s2 -> same_buffers s2 s3 -> same_buffers s1 s3.
Proof. intros [] []; split; congruence. Qed.

Section Steps.

Variable ext : Collaborators.
Variable config : settings.Config.
Variable extension : string.

Lemma track_top_comment_buffers index stripped_line line s :
  same_buffers s (track_top_comment config index stripped_line line s)
  /\ in_quote (track_top_comment config index stripped_line line s) = in_quote s
  /\ isort_off (track_top_comment config index stripped_line line s) = isort_off s.
Proof.
  unfold track_top_comment.
  repeat match goal with
         | |- context [if ?b then _ else _] => destruct b
         end; repeat split; reflexivity.
Qed.

Lemma track_quotes_buffers index stripped_line line s :
  same_buffers s (track_quotes index stripped_line line s)
  /\ in_top_comment (track_quotes index stripped_line line s) = in_top_comment s
  /\ isort_off (track_quotes index stripped_line line s) = isort_off s.
Proof.
  unfold track_quotes.
  destruct (_ || _); [|repeat split; reflexivity].
  destruct (_ && _);
    match goal with
    | |- context [scan_quotes ?a ?b ?c ?d ?e ?f] =>
        destruct (scan_quotes a b c d e f)
    end; repeat split; reflexivity.
Qed.

Lemma scanned_buffers index line s :
  same_buffers s (scanned config index line s)
  /\ isort_off (scanned config index line s) = isort_off s.
Proof.
  unfold scanned.
  destruct (track_top_comment_buffers index (strip line) line s) as (B1 & _ & O1).
  destruct (track_quotes_buffers index (strip line) line
              (track_top_comment config index (strip line) line s)) as (B2 & _ & O2).
  split; [eapply same_buffers_trans; eassumption | congruence].
Qed.




Lemma backslash_lines_extends fuel : forall line stripped_line section input
    line' stripped_line' section' rest,
  backslash_lines fuel line stripped_line section input
  = Returns (line', stripped_line', section', rest) ->
  exists more, section' = section ++ more.
Proof.
  induction fuel as [|fuel IH]; intros line st sec input line' st' sec' rest;
    cbn [backslash_lines]; [discriminate|].
  destruct (nonempty st && endswith st (chr backslash)).
  - destruct (readline input) as [next input']. intros H.
    apply IH in H. destruct H as [more ->]. exists (next ++ more).
    apply append_assoc.
  - intros [= <- <- <- <-]. exists "". now rewrite append_nil_r.
Qed.

Lemma paren_lines_extends fuel : forall line stripped_line section input
    line' stripped_line' section' rest,
  paren_lines fuel line stripped_line section input
  = Returns (line', stripped_line', section', rest) ->
  exists more, section' = section ++ more.
Proof.
  induction fuel as [|fuel IH]; intros line st sec input line' st' sec' rest;
    cbn [paren_lines]; [discriminate|].
  destruct (negb (contains ")" st)).
  - destruct (readline input) as [next input']. intros H.
    apply IH in H. destruct H as [more ->]. exists (next ++ more).
    apply append_assoc.
  - intros [= <- <- <- <-]. exists "". now rewrite append_nil_r.
Qed.

Lemma continuation_extends fuel : forall line stripped_line section input
    line' stripped_line' section' rest,
  continuation fuel line stripped_line section input
  = Returns (line', stripped_line', section', rest) ->
  exists more, section' = section ++ more.
Proof.
  induction fuel as [|fuel IH]; intros line st sec input line' st' sec' rest;
    cbn [continuation]; [discriminate|].
  destruct (endswith st (chr backslash) || _).
  - destruct (if endswith st (chr backslash)
              then backslash_lines fuel line st sec input
              else paren_lines fuel line st sec input)
      as [[[[l1 st1] sec1] r1]|e|] eqn:E; cbn [bind]; try discriminate.
    intros H. apply IH in H. destruct H as [more2 ->].
    assert (exists more1, sec1 = sec ++ more1) as [more1 ->].
    { destruct (endswith st (chr backslash));
        [eapply backslash_lines_extends | eapply paren_lines_extends]; eassumption. }
    exists (more1 ++ more2). apply append_assoc.
  - intros [= <- <- <- <-]. exists "". now rewrite append_nil_r.
Qed.

End Steps.

Section Classified.

Variable ext : Collaborators.
Variable config : settings.Config.
Variable extension : string.

(** What [classify] does to the state: with [not_imports] set it leaves the
    buffers alone; otherwise no literal is open, sorting is on, and the line
    is put at the end of the section, followed, for an import statement, by
    the lines of its continuation. *)
Lemma classify_cases fuel line input s s4 not_imports rest :
  classify fuel line input s = Returns (s4, not_imports, rest) ->
  (in_quote s4 = in_quote s /\ in_top_comment s4 = in_top_comment s
   /\ line_separator s4 = line_separator s /\ add_imports s4 = add_imports s
   /\ first_import_section s4 = first_import_section s
   /\ output_stream s4 = output_stream s /\ sort_calls s4 = sort_calls s)
  /\ ((not_imports = true /\ rest = input
       /\ import_section s4 = import_section s
       /\ contains_imports s4 = contains_imports s /\ indent s4 = indent s)
      \/ (not_imports = false
          /\ nonempty (in_quote s) = false /\ in_top_comment s = false
          /\ isort_off s = false /\ isort_off s4 = false
          /\ ((rest = input /\ import_section s4 = import_section s ++ line
               /\ contains_imports s4 = contains_imports s /\ indent s4 = indent s)
              \/ (startswith_any (strip line) IMPORT_START_IDENTIFIERS = true
                  /\ contains_imports s4 = true
                  /\ exists more, import_section s4 = import_section s ++ line ++ more)))).
Proof.
  unfold classify.
  destruct (nonempty (in_quote s)) eqn:Q, (in_top_comment s) eqn:T,
    (isort_off s) eqn:O; cbn [orb negb];
    try (intros [= <- <- <-]; split; [repeat split; auto|left; repeat split; auto]; fail).
  - destruct (String.eqb (strip line) "# isort: on");
      intros [= <- <- <-]; (split; [repeat split; auto|left; repeat split; auto]).
  - destruct (String.eqb (strip line) "# isort: off");
      [intros [= <- <- <-]; (split; [repeat split; auto|left; repeat split; auto])|].
    destruct (String.eqb (strip line) "# isort: split");
      [intros [= <- <- <-]; (split; [repeat split; auto|left; repeat split; auto])|].
    destruct (is_empty (strip line) || startswith (strip line) "#").
    { intros [= <- <- <-]. split; [repeat split; auto|].
      right; repeat split; auto; left; repeat split; auto. }
    destruct (startswith_any (strip line) IMPORT_START_IDENTIFIERS) eqn:I;
      [|intros [= <- <- <-]; (split; [repeat split; auto|left; repeat split; auto])].
    fields.
    destruct (continuation fuel line (strip line) (import_section s ++ line) input)
      as [[[[l1 st1] sec1] r1]|e|] eqn:E; cbn [bind]; try discriminate.
    intros [= <- <- <-]. fields. split; [repeat split; auto|].
    apply continuation_extends in E. destruct E as [more ->].
    right; repeat split; auto; right; repeat split; auto.
    exists more. apply append_assoc.
Qed.

(** What [flush] leaves: either there was no section and nothing to inject,
    and the line is written as it is; or the section is dealt with and the
    buffer is empty again.  The scanner's variables are not touched. *)
Lemma inject_alone_cases line s :
  nonempty (line_separator s) = true ->
  (in_quote (inject_alone line s) = in_quote s
   /\ in_top_comment (inject_alone line s) = in_top_comment s
   /\ isort_off (inject_alone line s) = isort_off s
   /\ line_separator (inject_alone line s) = line_separator s)
  /\ (inject_alone line s = s
      \/ nonempty (import_section (inject_alone line s)) = true).
Proof.
  intros Hsep. unfold inject_alone.
  destruct (some (add_imports s) && _ && _ && _ && _);
    fields; repeat split; auto.
  right. now apply nonempty_append_r.
Qed.

Lemma write_sorted_cases s s' :
  write_sorted ext config extension s = Returns s' ->
  in_quote s' = in_quote s /\ in_top_comment s' = in_top_comment s
  /\ isort_off s' = isort_off s /\ line_separator s' = line_separator s.
Proof.
  unfold write_sorted, dedent_section, strip_first_section.
  destruct (first_import_section s && _); fields;
    destruct (nonempty (indent s)); fields;
    try destruct (split _ _); cbn [bind]; fields; try discriminate;
    intros [= <-]; fields; repeat split; reflexivity.
Qed.

Lemma flush_cases line s s' :
  nonempty (line_separator s) = true ->
  flush ext config extension line s = Returns s' ->
  (in_quote s' = in_quote s /\ in_top_comment s' = in_top_comment s
   /\ isort_off s' = isort_off s /\ line_separator s' = line_separator s)
  /\ ((nonempty (import_section s) = false /\ inject_alone line s = s
       /\ s' = write line s)
      \/ (import_section s' = "" /\ contains_imports s' = false
          /\ nonempty (indent s') = false)).
Proof.
  intros Hsep. unfold flush.
  destruct (inject_alone_cases line s Hsep) as ((Aq & At & Ao & As) & A).
  destruct (nonempty (import_section (inject_alone line s))) eqn:Hsec.
  - set (s3 := if negb (nonempty (indent (inject_into_section (inject_alone line s))))
               then _ else _).
    assert (B : in_quote s3 = in_quote s /\ in_top_comment s3 = in_top_comment s
                /\ isort_off s3 = isort_off s /\ line_separator s3 = line_separator s).
    { subst s3. unfold inject_into_section.
      destruct (some _ && _); fields;
        repeat match goal with
               | |- context [if ?b then _ else _] => destruct b; fields
               end; repeat split; assumption. }
    destruct B as (Bq & Bt & Bo & Bs).
    destruct (if negb (contains_imports s3) then _ else _) as [s4|e|] eqn:E;
      cbn [bind]; try discriminate.
    assert (C : in_quote s4 = in_quote s /\ in_top_comment s4 = in_top_comment s
                /\ isort_off s4 = isort_off s /\ line_separator s4 = line_separator s).
    { destruct (negb (contains_imports s3)).
      - injection E as <-. fields. repeat split; assumption.
      - apply write_sorted_cases in E. destruct E as (-> & -> & -> & ->).
        repeat split; assumption. }
    destruct C as (Cq & Ct & Co & Cs).
    intros [= <-]. split.
    + destruct (nonempty (indent s4)); fields; repeat split; assumption.
    + right. destruct (nonempty (indent s4)) eqn:I; fields; repeat split; auto.
  - destruct A as [A|A]; [|congruence].
    rewrite A in *. intros [= <-]. fields. split; [repeat split; reflexivity|].
    left. repeat split; auto.
Qed.

End Classified.

Section Invariant.

Variable ext : Collaborators.
Variable config : settings.Config.
Variable extension : string.

Lemma last_char_nonempty line c : last_char line = Some c -> nonempty c = true.
Proof.
  induction line as [|a line IH]; cbn [last_char]; [discriminate|].
  destruct line; [intros [= <-]; reflexivity | exact IH].
Qed.

Lemma last_char_some line : nonempty line = true -> exists c, last_char line = Some c.
Proof.
  induction line as [|a line IH]; [discriminate|]. intros _.
  destruct line as [|b line]; [eexists; reflexivity|].
  destruct IH as [c Hc]; [reflexivity|]. exists c. exact Hc.
Qed.

Lemma import_start_nonempty line :
  startswith_any (strip line) IMPORT_START_IDENTIFIERS = true -> nonempty line = true.
Proof. destruct line; [discriminate | reflexivity]. Qed.

(** The stages of [at_line]: the line separator is settled, the scanner reads
    the line, the line is classified, and with [not_imports] the section is
    flushed. *)
Lemma at_line_stages fuel index line input s s' rest :
  at_line ext config extension fuel index line input s = Returns (s', rest) ->
  exists s1 s4 not_imports,
    settle_separator line s = Returns s1
    /\ classify fuel line input (scanned config index line s1)
       = Returns (s4, not_imports, rest)
    /\ ((not_imports = true /\ flush ext config extension line s4 = Returns s')
        \/ (not_imports = false /\ s' = s4)).
Proof.
  unfold at_line.
  destruct (settle_separator line s) as [s1|e|]; cbn [bind]; try discriminate.
  destruct (classify fuel line input (scanned config index line s1))
    as [[[s4 ni] r]|e|] eqn:C; cbn [bind]; try discriminate.
  intros H. exists s1, s4, ni. split; [reflexivity|].
  destruct ni.
  - destruct (flush ext config extension line s4) as [s5|e|] eqn:F;
      cbn [bind] in H; try discriminate.
    injection H as <- <-. split; [assumption|]. left; auto.
  - injection H as <- <-. split; [assumption|]. right; auto.
Qed.

(** Once settled, the line separator is not empty; the rest of the state is
    as it was. *)
Lemma settle_separator_cases line s s1 :
  settle_separator line s = Returns s1 ->
  nonempty (line_separator s1) = true
  /\ ((nonempty (line_separator s) = true /\ s1 = s)
      \/ (nonempty (line_separator s) = false
          /\ exists c, last_char line = Some c /\ s1 = set_line_separator c s)).
Proof.
  unfold settle_separator.
  destruct (nonempty (line_separator s)) eqn:Hsep.
  - intros [= <-]. auto.
  - destruct (last_char line) as [c|] eqn:L; [|discriminate].
    intros [= <-]. split; [fields; eapply last_char_nonempty; eassumption|].
    right. split; [reflexivity|]. exists c. auto.
Qed.

Lemma settle_separator_returns line s :
  nonempty line = true \/ nonempty (line_separator s) = true ->
  exists s1, settle_separator line s = Returns s1.
Proof.
  intros H. unfold settle_separator.
  destruct (nonempty (line_separator s)) eqn:Hsep; [eauto|].
  destruct H as [H|H]; [|discriminate].
  destruct (last_char_some line H) as [c ->]. eauto.
Qed.

Lemma consistent_initial : consistent (initial ext config).
Proof. split; cbn; congruence. Qed.

Lemma at_line_consistent fuel index line input s s' rest :
  consistent s ->
  at_line ext config extension fuel index line input s = Returns (s', rest) ->
  consistent s'.
Proof.
  intros [Cq Co Ci Cd Cs] H.
  apply at_line_stages in H.
  destruct H as (s1 & s4 & ni & Hs1 & Hclass & Hflush).
  apply settle_separator_cases in Hs1. destruct Hs1 as (Hsep & Hs1).
  assert (B1 : import_section s1 = import_section s
               /\ contains_imports s1 = contains_imports s
               /\ indent s1 = indent s).
  { destruct Hs1 as [(_ & ->) | (_ & c & _ & ->)]; repeat split; reflexivity. }
  destruct B1 as (B1s & B1c & B1i).
  destruct (scanned_buffers config index line s1) as ([_ _ B3s B3c _ B3i _ _] & B3o).
  apply classify_cases in Hclass.
  destruct Hclass as ((Kq & Kt & Ksep & Ka & Kf & Ko & Kc) & K).
  rewrite (same_line_separator _ _ (proj1 (scanned_buffers config index line s1)))
    in Ksep.
  destruct Hflush as [(-> & Hflush) | (-> & ->)].
  - destruct K as [(_ & _ & Ks & Kci & Ki) | (? & _)]; [|discriminate].
    apply flush_cases in Hflush; [|congruence].
    destruct Hflush as (_ & [(Fe & _ & ->) | (Fs & Fc & Fi)]).
    + assert (E : nonempty (import_section s) = false) by congruence.
      split; fields.
      * intros _. apply nonempty_false. congruence.
      * intros _. apply nonempty_false. congruence.
      * intros Hc. rewrite Kci, B3c, B1c in Hc. apply Ci in Hc. congruence.
      * intros Hi. rewrite Kci, B3c, B1c. apply Cd. congruence.
      * intros _. congruence.
    + split.
      * intros _. assumption.
      * intros _. assumption.
      * congruence.
      * congruence.
      * rewrite Fs. discriminate.
  - destruct K as [(? & _) | (_ & Kq' & _ & _ & Koff & K)]; [discriminate|].
    split.
    + rewrite Kq, Kq'. discriminate.
    + rewrite Koff. discriminate.
    + destruct K as [(_ & Ks & Kci & _) | (Kimp & _ & more & Ks)]; rewrite Ks.
      * intros Hc. apply nonempty_append_l. rewrite B3s, B1s. apply Ci. congruence.
      * intros _. apply nonempty_append_r, nonempty_append_l.
        now apply import_start_nonempty.
    + destruct K as [(_ & _ & Kci & Ki) | (_ & Kci & _)].
      * intros Hi. rewrite Kci, B3c, B1c. apply Cd. congruence.
      * intros _. assumption.
    + intros _. congruence.
Qed.

Lemma reachable_consistent index s :
  reachable ext config extension index s -> consistent s.
Proof.
  induction 1 as [|index s fuel line input s' rest _ IH H].
  - apply consistent_initial.
  - eapply at_line_consistent; eassumption.
Qed.

End Invariant.

(** ** A parenthesis in a comment, at the end of the stream *)

Section Unclosed.

Variable ext : Collaborators.
Variable config : settings.Config.
Variable extension : string.

(** An import line that holds an opening parenthesis and no closing one,
    even if only in its comment, as the last line of the stream: the loop of
    lines 239-242 is entered and does not end. *)
Lemma classify_unclosed fuel line s :
  nonempty (in_quote s) = false -> in_top_comment s = false -> isort_off s = false ->
  String.eqb (strip line) "# isort: off" = false ->
  String.eqb (strip line) "# isort: split" = false ->
  is_empty (strip line) || startswith (strip line) "#" = false ->
  startswith_any (strip line) IMPORT_START_IDENTIFIERS = true ->
  endswith (strip line) (chr backslash) = false ->
  contains "(" (strip line) = true ->
  contains ")" (strip line) = false ->
  classify fuel line [] s = OutOfFuel.
Proof.
  intros Hq Ht Ho Hoff Hsplit Hblank Himport Hb Hopen Hclose.
  unfold classify. rewrite Hq, Ht, Ho. cbn [orb negb].
  rewrite Hoff, Hsplit, Hblank, Himport.
  rewrite continuation_at_end by assumption. reflexivity.
Qed.

Lemma sort_imports_unclosed fuel line :
  contains (chr dquote) line = false ->
  contains (chr squote) line = false ->
  String.eqb (strip line) "# isort: off" = false ->
  String.eqb (strip line) "# isort: split" = false ->
  is_empty (strip line) || startswith (strip line) "#" = false ->
  startswith_any (strip line) IMPORT_START_IDENTIFIERS = true ->
  endswith (strip line) (chr backslash) = false ->
  contains "(" (strip line) = true ->
  contains ")" (strip line) = false ->
  sort_imports ext config extension fuel [line] = OutOfFuel.
Proof.
  intros Hd Hs Hoff Hsplit Hblank Himport Hb Hopen Hclose.
  assert (Hhash : startswith (strip line) "#" = false).
  { apply orb_false_iff in Hblank. apply Hblank. }
  assert (H : forall n s, nonempty (in_quote s) = false -> in_top_comment s = false ->
                          isort_off s = false ->
              classify n line [] (scanned config 0 line s) = OutOfFuel).
  { intros n s Hq Ht Ho. unfold scanned. cbv zeta.
    unfold track_top_comment. rewrite Hhash, andb_false_r. cbn [andb]. rewrite Ht.
    unfold track_quotes. rewrite Hd, Hs, andb_false_r. cbn [orb].
    now apply classify_unclosed. }
  unfold sort_imports. destruct fuel as [|fuel]; cbn [sort_loop]; [reflexivity|].
  unfold at_line, settle_separator.
  destruct (nonempty (line_separator (initial ext config))); cbn [bind].
  - rewrite H by reflexivity. reflexivity.
  - destruct (last_char_some line (import_start_nonempty line Himport)) as [c ->].
    cbn [bind]. rewrite H by reflexivity. reflexivity.
Qed.

End Unclosed.

(** C7 (where the code departs from it).  In atomic mode the text
    [import os  # (], one line, passes the validation that comes before the
    engine: it is accepted by [compile].  The claim has the sorted text
    returned then.  It is not: whatever the collaborators, the configuration
    and the fuel, [sorted_imports] comes to no result, the fuel running out
    in the loop that waits for a closing parenthesis. *)
Theorem atomic_text_not_returned (ext : Collaborators) (config : settings.Config)
  (extension : string) (file_path : option string) (disregard_skip : bool)
  (fuel : nat) :
  settings.atomic config = true ->
  compile ext (L "import os  # (") = Compiled ->
  skip_signal ext config (L "import os  # (") file_path disregard_skip = None ->
  validated ext config (L "import os  # (") ExistingSyntaxErrors = Returns tt
  /\ sorted_imports ext fuel (L "import os  # (") extension config false file_path
       disregard_skip [] = OutOfFuel.
Proof.
  intros Hatomic Hcompile Hskip.
  assert (V : validated ext config (L "import os  # (") ExistingSyntaxErrors
              = Returns tt).
  { unfold validated. rewrite Hatomic, Hcompile. reflexivity. }
  split; [exact V|].
  unfold sorted_imports, _config. cbn [some andb bind fst].
  rewrite Hskip, V. cbn [bind].
  replace (io_lines (L "import os  # (")) with [L "import os  # ("] by reflexivity.
  rewrite sort_imports_unclosed by reflexivity. reflexivity.
Qed.

Lemma atomic_text_not_returned_witness :
  validated Stub.unchanged (Stub.atomically false) (L "import os  # (")
    ExistingSyntaxErrors = Returns tt
  /\ sorted_imports Stub.unchanged 1000 (L "import os  # (") "py"
       (Stub.atomically false) false None false [] = OutOfFuel.
Proof.
  apply (atomic_text_not_returned Stub.unchanged (Stub.atomically false) "py" None
           false 1000); reflexivity.
Defined.

(** ** Lines that are not import lines *)

Section NotImports.

Variable ext : Collaborators.
Variable config : settings.Config.
Variable extension : string.




Lemma split_some sep text :
  nonempty sep = true -> exists pieces, split sep text = Some pieces.
Proof. destruct sep; [discriminate|]. intros _. unfold split. eauto. Qed.

End NotImports.


(** ** The loop *)

Section Loop.

Variable ext : Collaborators.
Variable config : settings.Config.
Variable extension : string.

Lemma sort_loop_read_lines fuel : forall index input s,
  sort_loop ext config extension fuel index input s
  = (read <- read_lines ext config extension fuel index input s ;;
     at_end ext config extension (fst read) (snd read)).
Proof.
  induction fuel as [|fuel IH]; intros index input s; cbn [sort_loop read_lines bind];
    [reflexivity|].
  destruct input as [|line rest]; [reflexivity|].
  destruct (at_line ext config extension fuel index line rest s) as [[s' rest']|e|];
    cbn [bind]; auto.
Qed.

Lemma read_lines_reachable fuel : forall index input s index' s',
  reachable ext config extension index s ->
  read_lines ext config extension fuel index input s = Returns (index', s') ->
  reachable ext config extension index' s'.
Proof.
  induction fuel as [|fuel IH]; intros index input s index' s' R; cbn [read_lines];
    [discriminate|].
  destruct input as [|line rest]; [intros [= <- <-]; exact R|].
  destruct (at_line ext config extension fuel index line rest s) as [[s1 rest1]|e|] eqn:E;
    cbn [bind]; try discriminate.
  apply IH. eapply reach_line; eassumption.
Qed.

End Loop.

Lemma state_after_reachable lines index s :
  read_lines Stub.unchanged Stub.DEFAULT_CONFIG "py" 20 0 lines
    (initial Stub.unchanged Stub.DEFAULT_CONFIG) = Returns (index, s) ->
  reachable Stub.unchanged Stub.DEFAULT_CONFIG "py" index s.
Proof. apply read_lines_reachable. apply reach_initial. Qed.



(** ** Every line is accounted for *)

Lemma strip_first_section_fields s :
  output_stream (strip_first_section s) = output_stream s
  /\ sort_calls (strip_first_section s) = sort_calls s
  /\ line_separator (strip_first_section s) = line_separator s
  /\ (import_section (strip_first_section s) = import_section s
      \/ import_section (strip_first_section s)
         = lstrip_chars (line_separator s) (import_section s)).
Proof.
  unfold strip_first_section.
  destruct (first_import_section s && _); fields; auto.
Qed.












(** ** Indented sections *)

(** [lstrip] takes away all the whitespace a text begins with, however much
    there is. *)
Lemma lstrip_removes_all (text : string) :
  exists blank,
    text = blank ++ lstrip text
    /\ forallb is_space (list_ascii_of_string blank) = true
    /\ match lstrip text with
       | String c _ => is_space c = false
       | EmptyString => True
       end.
Proof.
  induction text as [|c text (blank & E & B & F)]; cbn [lstrip].
  - exists "". auto.
  - destruct (is_space c) eqn:S.
    + exists (String c blank). cbn [append list_ascii_of_string forallb].
      rewrite S, B, <- E. auto.
    + exists "". cbn. auto.
Qed.

(** An indentation is recorded only for a section that holds imports, and
    by then the line separator is known. *)
Lemma indented_state (ext : Collaborators) config extension index s :
  reachable ext config extension index s ->
  nonempty (indent s) = true ->
  contains_imports s = true /\ nonempty (import_section s) = true
  /\ nonempty (line_separator s) = true.
Proof.
  intros R H. destruct (reachable_consistent _ _ _ _ _ R) as [_ _ Ci Cd Cs].
  pose proof (Cd H) as Hc. pose proof (Ci Hc) as Hs. auto.
Qed.




(** ** Texts without import statements *)

Section Plain.

Variable ext : Collaborators.
Variable config : settings.Config.
Variable extension : string.

Lemma classify_plain fuel line input s :
  startswith_any (strip line) IMPORT_START_IDENTIFIERS = false ->
  exists s4 not_imports, classify fuel line input s = Returns (s4, not_imports, input).
Proof.
  intros H. unfold classify. rewrite H.
  repeat match goal with
         | |- context [if ?b then _ else _] => destruct b
         end; eauto.
Qed.

Lemma flush_verbatim line s read :
  verbatim s read ->
  exists s', flush ext config extension line s = Returns s'
             /\ verbatim s' (read ++ line) /\ import_section s' = "".
Proof.
  intros (Ha & Hc & Hi & Hk & Ho).
  destruct (nonempty (import_section s)) eqn:Hsec.
  - rewrite (flush_without_imports ext config extension line s Hsec Ha Hc Hi).
    eexists. split; [reflexivity|]. unfold verbatim. fields.
    rewrite append_nil_r, <- Ho, !append_assoc. auto 10.
  - rewrite (flush_no_section ext config extension line s Hsec
               (inject_alone_nothing_to_add _ _ Ha)).
    eexists. split; [reflexivity|]. unfold verbatim. fields.
    apply nonempty_false in Hsec. rewrite Hsec in *.
    rewrite append_nil_r in *. subst read. auto 10.
Qed.

Lemma at_line_plain fuel index line rest s read :
  plain line -> verbatim s read ->
  exists s', at_line ext config extension fuel index line rest s = Returns (s', rest)
             /\ verbatim s' (read ++ line).
Proof.
  intros (Hne & Hplain) (Ha & Hc & Hi & Hk & Ho).
  destruct (settle_separator_returns line s (or_introl Hne)) as [s1 Hs1].
  destruct (classify_plain fuel line rest (scanned config index line s1) Hplain)
    as (s4 & ni & Hclass).
  assert (V1 : verbatim s1 read).
  { destruct (settle_separator_cases _ _ _ Hs1) as (_ & [(_ & ->) | (_ & c & _ & ->)]);
      unfold verbatim; fields; auto. }
  destruct V1 as (Ha1 & Hc1 & Hi1 & Hk1 & Ho1).
  destruct (scanned_buffers config index line s1) as ([_ Ba Bs Bc _ Bi Bo Bk] & _).
  destruct (classify_cases fuel line rest _ _ _ _ Hclass)
    as ((_ & _ & _ & Ka & _ & Ko & Kk) & K).
  unfold at_line. rewrite Hs1. cbn [bind]. rewrite Hclass. cbn [bind].
  destruct K as [(-> & _ & Ks & Kc & Ki) | (-> & _ & _ & _ & _ & K)].
  - destruct (flush_verbatim line s4 read) as (s' & F & V & _).
    { unfold verbatim. rewrite Ka, Kc, Ki, Kk, Ko, Ks, Ba, Bc, Bi, Bk, Bo, Bs. auto. }
    rewrite F. cbn [bind]. eauto.
  - destruct K as [(_ & Ks & Kc & Ki) | (Himp & _)]; [|congruence].
    eexists. split; [reflexivity|]. unfold verbatim.
    rewrite Ka, Kc, Ki, Kk, Ko, Ks, Ba, Bc, Bi, Bk, Bo, Bs, <- Ho1, append_assoc.
    auto 10.
Qed.

Lemma read_lines_plain lines : forall index s read,
  Forall plain lines -> verbatim s read ->
  exists s',
    read_lines ext config extension (S (List.length lines)) index lines s
    = Returns ((index + Z.of_nat (List.length lines))%Z, s')
    /\ verbatim s' (read ++ fold_right append "" lines).
Proof.
  induction lines as [|line lines IH]; intros index s read Hplain V.
  - exists s. cbn [List.length read_lines fold_right Z.of_nat].
    rewrite Z.add_0_r, append_nil_r. auto.
  - inversion Hplain as [|? ? Hline Hrest]; subst.
    change (read_lines ext config extension (S (List.length (line :: lines))) index
              (line :: lines) s)
      with (stepped <- at_line ext config extension (S (List.length lines)) index line
                         lines s ;;
            let '(s', rest') := stepped in
            read_lines ext config extension (S (List.length lines)) (index + 1)%Z
              rest' s').
    destruct (at_line_plain (S (List.length lines)) index line lines s read Hline V)
      as (s1 & A & V1).
    rewrite A. cbn [bind].
    destruct (IH (index + 1)%Z s1 (read ++ line) Hrest V1) as (s' & R & V').
    exists s'. rewrite R. split.
    + do 2 f_equal. cbn [List.length]. lia.
    + cbn [fold_right]. now rewrite <- append_assoc.
Qed.

(** At the end of the stream what is buffered is written as it is. *)
Lemma at_end_verbatim index s read :
  verbatim s read ->
  ((index =? 0)%Z = true -> import_section s = "") ->
  exists final,
    at_end ext config extension index s = Returns final
    /\ output_stream final = read /\ sort_calls final = [].
Proof.
  intros V H0. unfold at_end.
  destruct ((index =? 0)%Z && negb (settings.force_adds config)) eqn:E.
  - apply andb_prop in E. destruct E as [E _].
    destruct V as (_ & _ & _ & Hk & Ho). rewrite (H0 E), append_nil_r in Ho.
    eauto.
  - set (s1 := if nonempty (line_separator s) then s else set_line_separator nl s).
    assert (V1 : verbatim s1 read).
    { subst s1. destruct (nonempty (line_separator s)); [exact V|].
      destruct V as (? & ? & ? & ? & ?). unfold verbatim. fields. auto. }
    destruct (flush_verbatim "" s1 read V1) as (final & F & (_ & _ & _ & Hk & Ho) & Hs).
    exists final. rewrite Hs, !append_nil_r in Ho. auto.
Qed.

(** Without statements to add, a stream none of whose lines begins an
    import statement is written out as it was read, and the sort contract is
    never called. *)
Lemma sort_imports_plain lines :
  settings.add_imports config = [] ->
  Forall plain lines ->
  exists final,
    sort_imports ext config extension (S (List.length lines)) lines = Returns final
    /\ output_stream final = fold_right append "" lines
    /\ sort_calls final = [].
Proof.
  intros Hadd Hplain. unfold sort_imports. rewrite sort_loop_read_lines.
  assert (V : verbatim (initial ext config) "").
  { unfold verbatim, initial. fields. rewrite Hadd. auto. }
  destruct (read_lines_plain lines 0%Z _ _ Hplain V) as (s' & R & V').
  rewrite R. cbn [bind fst snd]. cbn [append] in V'.
  apply at_end_verbatim; [exact V'|].
  intros E. destruct lines as [|line lines].
  - cbn in R. injection R as <-. reflexivity.
  - apply Z.eqb_eq in E. cbn [List.length] in E. lia.
Qed.

End Plain.

(** The lines of a [StringIO] are not empty and make up its text. *)
Lemma io_lines_from_text (text : string) : forall cur,
  fold_right append "" (io_lines_from cur text) = cur ++ text
  /\ Forall (fun line => nonempty line = true) (io_lines_from cur text).
Proof.
  induction text as [|c text IH]; intros cur; cbn [io_lines_from].
  - destruct (nonempty cur) eqn:E.
    + split; [reflexivity | auto].
    + apply nonempty_false in E. subst. split; [reflexivity | constructor].
  - destruct (Ascii.eqb c LF) eqn:E.
    + apply Ascii.eqb_eq in E. subst c.
      destruct (IH "") as (F & N). split.
      * cbn [fold_right]. rewrite F. cbn [append]. now rewrite append_assoc.
      * constructor; [|exact N]. apply nonempty_append_r. reflexivity.
    + destruct (IH (cur ++ chr c)) as (F & N). split; [|exact N].
      rewrite F. now rewrite append_assoc.
Qed.

Lemma io_lines_text (text : string) :
  fold_right append "" (io_lines text) = text
  /\ Forall (fun line => nonempty line = true) (io_lines text).
Proof. apply (io_lines_from_text text ""). Qed.

(** C2, as far as the engine alone answers for it.  When there is nothing to
    add and no line of the text begins an import statement, [sorted_imports]
    hands nothing to the sort contract and returns the text it was given; run
    on what it returned, it returns the same again. *)
Theorem sorted_imports_twice (ext : Collaborators) (file_contents extension : string)
  (config : settings.Config) (is_default : bool) (file_path : option string)
  (disregard_skip : bool) (config_kwargs : list (string * string))
  (config' : settings.Config) (is_default' : bool) :
  _config ext config is_default config_kwargs = Returns (config', is_default') ->
  skip_signal ext config' file_contents file_path disregard_skip = None ->
  (settings.atomic config' = true -> compile ext file_contents = Compiled) ->
  settings.add_imports config' = [] ->
  Forall (fun line => startswith_any (strip line) IMPORT_START_IDENTIFIERS = false)
    (io_lines file_contents) ->
  exists fuel,
    sorted_imports ext fuel file_contents extension config is_default file_path
      disregard_skip config_kwargs = Returns file_contents
    /\ forall sorted_output,
         sorted_imports ext fuel file_contents extension config is_default file_path
           disregard_skip config_kwargs = Returns sorted_output ->
         sorted_imports ext fuel sorted_output extension config is_default file_path
           disregard_skip config_kwargs = Returns sorted_output.
Proof.
  intros Hconfig Hskip Hatomic Hadd Hplain.
  exists (S (List.length (io_lines file_contents))).
  assert (E : sorted_imports ext (S (List.length (io_lines file_contents)))
                file_contents extension config is_default file_path disregard_skip
                config_kwargs = Returns file_contents).
  { rewrite (sorted_imports_unfold _ _ _ _ _ _ _ _ _ _ _ Hconfig), Hskip.
    assert (A : forall signal, validated ext config' file_contents signal = Returns tt).
    { intros signal. unfold validated.
      destruct (settings.atomic config'); [|reflexivity].
      rewrite Hatomic; reflexivity. }
    rewrite !A. cbn [bind].
    destruct (io_lines_text file_contents) as (T & N).
    destruct (sort_imports_plain ext config' extension (io_lines file_contents) Hadd)
      as (final & R & O & _).
    { apply Forall_forall. intros line Hin. split.
      - exact (proj1 (Forall_forall _ _) N line Hin).
      - exact (proj1 (Forall_forall _ _) Hplain line Hin). }
    rewrite R. cbn [bind]. rewrite O, T. reflexivity. }
  split; [exact E|].
  intros sorted_output H. rewrite E in H. injection H as <-. exact E.
Qed.

Lemma sorted_imports_twice_witness :
  exists fuel,
    sorted_imports Stub.unchanged fuel (L "x = 1" ++ L "# done") "py"
      Stub.DEFAULT_CONFIG true None false [] = Returns (L "x = 1" ++ L "# done")
    /\ forall sorted_output,
         sorted_imports Stub.unchanged fuel (L "x = 1" ++ L "# done") "py"
           Stub.DEFAULT_CONFIG true None false [] = Returns sorted_output ->
         sorted_imports Stub.unchanged fuel sorted_output "py"
           Stub.DEFAULT_CONFIG true None false [] = Returns sorted_output.
Proof.
  apply (sorted_imports_twice Stub.unchanged (L "x = 1" ++ L "# done") "py"
           Stub.DEFAULT_CONFIG true None false [] Stub.DEFAULT_CONFIG true).
  - reflexivity.
  - reflexivity.
  - discriminate.
  - reflexivity.
  - vm_compute. repeat constructor.
Defined.

(** C2 as it is stated does not hold.  The sort contract that returns its
    text unchanged is deterministic and idempotent, yet sorting twice is not
    sorting once: an indented import gets one more line separator after it
    each time, the one of line 284. *)
Lemma sorted_imports_twice_counterexample :
  ~ (forall (ext : Collaborators) config file_contents fuel sorted_output,
       (forall c e text,
          sorted_section ext c e (sorted_section ext c e text)
          = sorted_section ext c e text) ->
       sorted_imports ext fuel file_contents "py" config true None false []
       = Returns sorted_output ->
       sorted_imports ext fuel sorted_output "py" config true None false []
       = Returns sorted_output).
Proof.
  intros H.
  specialize (H Stub.unchanged Stub.DEFAULT_CONFIG (L "  import a" ++ L "x") 9
                (L "  import a" ++ L "" ++ L "x")
                (fun _ _ _ => eq_refl)).
  assert (E1 : sorted_imports Stub.unchanged 9 (L "  import a" ++ L "x") "py"
                 Stub.DEFAULT_CONFIG true None false []
               = Returns (L "  import a" ++ L "" ++ L "x"))
    by (vm_compute; reflexivity).
  assert (E2 : sorted_imports Stub.unchanged 9 (L "  import a" ++ L "" ++ L "x") "py"
                 Stub.DEFAULT_CONFIG true None false []
               = Returns (L "  import a" ++ L "" ++ L "" ++ L "x"))
    by (vm_compute; reflexivity).
  specialize (H E1). rewrite E2 in H. discriminate H.
Qed.

(** ** The end of the stream inside a literal or after a backslash *)

(** A literal still open when the stream ends: every line has been written
    as it was read, and nothing went to the sort contract. *)
Example literal_open_at_end (ext : Collaborators) :
  exists final,
    sort_imports ext Stub.DEFAULT_CONFIG "py" 9 [L "x = '''"; L "import a"]
    = Returns final
    /\ output_stream final = L "x = '''" ++ L "import a"
    /\ sort_calls final = [].
Proof.
  eexists. split; [vm_compute; reflexivity|]. split; reflexivity.
Qed.

(** A backslash with nothing after it: the engine returns, and the buffered
    statement is flushed through the sort contract. *)
Example backslash_at_end (ext : Collaborators) :
  exists final,
    sort_imports ext Stub.DEFAULT_CONFIG "py" 9 [L "import a \"] = Returns final
    /\ sort_calls final = [L "import a \"]
    /\ output_stream final
       = sorted_section ext Stub.DEFAULT_CONFIG "py" (L "import a \").
Proof.
  eexists. split; [vm_compute; reflexivity|]. split; reflexivity.
Qed.

(** ** Keyword arguments and files *)

Section Entry.

Variable ext : Collaborators.

(** Without a path, [_config_from] is the [_config] of the entry points. *)
Lemma _config_from_no_path config is_default config_kwargs :
  _config_from ext None config is_default config_kwargs
  = _config ext config is_default config_kwargs.
Proof. reflexivity. Qed.




Lemma _config_from_parent parent config is_default :
  _config_from ext (Some parent) config is_default []
  = Returns (if is_default then Config_new ext [("settings_path", parent)] else config,
             false).
Proof. unfold _config_from. destruct is_default; reflexivity. Qed.


(** X3.  Without keyword arguments [sorted_file] is [sorted_imports] on the
    contents, extension and path of the file, under the [Config] given, or,
    when that is the default, under the one built from the directory of the
    file; the skip checks are always on.  So a path that this [Config] skips
    raises [FileSkipSetting], whatever the contents. *)
Theorem sorted_file_resolves (File_read : string -> outcome io.File) fuel filename
  (config : settings.Config) (is_default : bool) (file_data : io.File) :
  File_read filename = Returns file_data ->
  let resolved :=
    if is_default
    then Config_new ext [("settings_path", io.parent file_data)]
    else config in
  sorted_file ext File_read fuel filename config is_default []
  = sorted_imports ext fuel (io.contents file_data) (io.extension file_data)
      resolved false (Some (io.path file_data)) false []
  /\ (settings.is_skipped resolved (io.path file_data) = true ->
      sorted_file ext File_read fuel filename config is_default []
      = Raises FileSkipSetting).
Proof.
  intros Hread resolved.
  assert (E : sorted_file ext File_read fuel filename config is_default []
              = sorted_imports ext fuel (io.contents file_data)
                  (io.extension file_data) resolved false
                  (Some (io.path file_data)) false []).
  { unfold sorted_file. rewrite Hread. cbn [bind].
    rewrite _config_from_parent. reflexivity. }
  split; [exact E|].
  intros Hskip. rewrite E.
  rewrite (sorted_imports_unfold ext fuel _ _ resolved false _ _ [] resolved false
             eq_refl).
  unfold skip_signal. cbn [negb]. rewrite Hskip. reflexivity.
Qed.

(** X4.  The order of the signals of [sorted_imports], once the [Config] is
    resolved and the skip checks are on: a skipped path comes first, then a
    skip marker in the text, then, in atomic mode, a text that does not
    compile.  None of them waits for the engine: each is the result for every
    fuel. *)
Theorem signals_in_order fuel file_contents extension config is_default file_path
  config_kwargs config' is_default' :
  _config ext config is_default config_kwargs = Returns (config', is_default') ->
  let skipped :=
    match file_path with
    | Some path => settings.is_skipped config' path
    | None => false
    end in
  let marked :=
    existsb (fun marker => contains marker file_contents) (FILE_SKIP_COMMENTS ext) in
  let result :=
    sorted_imports ext fuel file_contents extension config is_default file_path
      false config_kwargs in
  (skipped = true -> result = Raises FileSkipSetting)
  /\ (skipped = false -> marked = true -> result = Raises FileSkipComment)
  /\ (skipped = false -> marked = false -> settings.atomic config' = true ->
      compile ext file_contents = SyntaxError -> result = Raises ExistingSyntaxErrors).
Proof.
  intros Hconfig skipped marked result. subst result skipped marked.
  rewrite (sorted_imports_unfold _ _ _ _ _ _ _ _ _ _ _ Hconfig).
  unfold skip_signal. cbn [negb].
  repeat split.
  - intros H1. rewrite H1. reflexivity.
  - intros H1 H2. rewrite H1, H2. reflexivity.
  - intros H1 H2 H3 H4. unfold validated. rewrite H1, H2, H3, H4. reflexivity.
Qed.


End Entry.



Lemma sorted_file_resolves_witness :
  sorted_file Stub.unchanged
    (fun filename =>
       Returns {| io.path := filename; io.parent := "src"; io.contents := L "x = 1";
                  io.extension := "py" |})
    9 "src/a.py" Stub.DEFAULT_CONFIG true []
  = sorted_imports Stub.unchanged 9 (L "x = 1") "py" Stub.DEFAULT_CONFIG false
      (Some "src/a.py") false [].
Proof.
  apply (proj1 (sorted_file_resolves Stub.unchanged _ 9 "src/a.py"
                  Stub.DEFAULT_CONFIG true
                  {| io.path := "src/a.py"; io.parent := "src";
                     io.contents := L "x = 1"; io.extension := "py" |} eq_refl)).
Defined.

Lemma signals_in_order_witness :
  sorted_imports Stub.unchanged 0 (L "# isort: skip_file") "py"
    (Stub.atomically false) false None false [] = Raises FileSkipComment.
Proof.
  apply (proj1 (proj2 (signals_in_order Stub.unchanged 0 (L "# isort: skip_file") "py"
                         (Stub.atomically false) false None []
                         (Stub.atomically false) false eq_refl)));
    reflexivity.
Defined.


(** ** What the loop keeps *)

Section Kept.

Variable ext : Collaborators.
Variable config : settings.Config.
Variable extension : string.

Lemma scan_quotes_quote_state (rest : string) : forall index fstart skip quote fend,
  quote_state quote = true ->
  quote_state (fst (scan_quotes index fstart skip quote fend rest)) = true.
Proof.
  induction rest as [|c rest IH]; intros index fstart skip quote fend Hq;
    cbn [scan_quotes]; [exact Hq|].
  destruct skip as [|skip]; [|now apply IH].
  destruct (Ascii.eqb c backslash); [now apply IH|].
  destruct (nonempty quote).
  - destruct (startswith (String c rest) quote); now apply IH.
  - destruct (Ascii.eqb c squote || Ascii.eqb c dquote) eqn:Q.
    + destruct (mem_string (take 3 (String c rest)) [triple dquote; triple squote])
        eqn:T; apply IH.
      * unfold mem_string in T. cbn [existsb] in T.
        rewrite orb_false_r in T. apply orb_prop in T.
        destruct T as [T|T]; apply String.eqb_eq in T; rewrite T; reflexivity.
      * apply orb_prop in Q.
        destruct Q as [Q|Q]; apply Ascii.eqb_eq in Q; subst c; reflexivity.
    + destruct (Ascii.eqb c hash); [exact Hq | now apply IH].
Qed.

Lemma scanned_quote_state index line s :
  quote_state (in_quote s) = true ->
  quote_state (in_quote (scanned config index line s)) = true.
Proof.
  intros Hq. unfold scanned. cbv zeta.
  destruct (track_top_comment_buffers config index (strip line) line s) as (_ & Eq & _).
  revert Eq. generalize (track_top_comment config index (strip line) line s).
  intros s2 Eq. unfold track_quotes.
  destruct (_ || _); [|congruence].
  set (s1 := if _ && _ then set_first_comment_index_start index s2 else s2).
  assert (E1 : in_quote s1 = in_quote s2) by (subst s1; destruct (_ && _); reflexivity).
  pose proof (scan_quotes_quote_state line index (first_comment_index_start s1) 0
                (in_quote s1) (first_comment_index_end s1)) as S.
  destruct (scan_quotes index (first_comment_index_start s1) 0 (in_quote s1)
              (first_comment_index_end s1) line) as [quote fend].
  fields. apply S. congruence.
Qed.

(** The stages of [at_line], with the line separator known in each. *)
Lemma at_line_parts fuel index line input s s' rest :
  at_line ext config extension fuel index line input s = Returns (s', rest) ->
  exists s1 s4 not_imports,
    settle_separator line s = Returns s1
    /\ nonempty (line_separator s1) = true
    /\ classify fuel line input (scanned config index line s1)
       = Returns (s4, not_imports, rest)
    /\ line_separator s4 = line_separator s1
    /\ ((not_imports = true /\ flush ext config extension line s4 = Returns s')
        \/ (not_imports = false /\ s' = s4)).
Proof.
  intros H. apply at_line_stages in H.
  destruct H as (s1 & s4 & ni & Hs1 & Hclass & Hflush).
  exists s1, s4, ni. split; [exact Hs1|].
  split; [apply (settle_separator_cases _ _ _ Hs1)|].
  split; [exact Hclass|]. split; [|exact Hflush].
  destruct (classify_cases _ _ _ _ _ _ _ Hclass) as ((_ & _ & Kl & _) & _).
  rewrite Kl. apply (same_line_separator _ _ (proj1 (scanned_buffers config index line s1))).
Qed.

Lemma at_line_quote_state fuel index line input s s' rest :
  quote_state (in_quote s) = true ->
  at_line ext config extension fuel index line input s = Returns (s', rest) ->
  quote_state (in_quote s') = true.
Proof.
  intros Hq H. apply at_line_parts in H.
  destruct H as (s1 & s4 & ni & Hs1 & Hsep & Hclass & Hl & Hflush).
  assert (Q1 : quote_state (in_quote s1) = true).
  { destruct (settle_separator_cases _ _ _ Hs1) as (_ & [(_ & ->) | (_ & c & _ & ->)]);
      exact Hq. }
  pose proof (scanned_quote_state index line s1 Q1) as Q3.
  destruct (classify_cases _ _ _ _ _ _ _ Hclass) as ((Kq & _) & _).
  destruct Hflush as [(_ & Hflush) | (_ & ->)]; [|congruence].
  apply flush_cases in Hflush; [|congruence].
  destruct Hflush as ((Fq & _) & _). congruence.
Qed.

End Kept.

(** X6.  Between two iterations [in_quote] is empty or one of the four
    delimiters: an apostrophe, a quotation mark, or three of either.  The
    scanner never leaves anything else in it. *)
Theorem quote_state_kept (ext : Collaborators) (config : settings.Config)
  (extension : string) (index : Z) (s : Scan) :
  reachable ext config extension index s ->
  quote_state (in_quote s) = true.
Proof.
  induction 1 as [|index s fuel line input s' rest _ IH H]; [reflexivity|].
  eapply at_line_quote_state; eassumption.
Qed.

Lemma quote_state_kept_witness : quote_state (in_quote in_literal) = true.
Proof.
  apply (quote_state_kept Stub.unchanged Stub.DEFAULT_CONFIG "py" 1 in_literal).
  apply (state_after_reachable [L "x = '''"]). vm_compute. reflexivity.
Defined.

(** ** One forward pass *)

Lemma grows_refl s : grows s s.
Proof.
  split; [exists ""; now rewrite append_nil_r | exists []; now rewrite app_nil_r | now left].
Qed.

Lemma grows_trans s1 s2 s3 : grows s1 s2 -> grows s2 s3 -> grows s1 s3.
Proof.
  intros [[w1 O1] [c1 K1] A1] [[w2 O2] [c2 K2] A2]. split.
  - exists (w1 ++ w2). now rewrite O2, O1, append_assoc.
  - exists (c1 ++ c2)%list. now rewrite K2, K1, app_assoc.
  - destruct A2 as [A2|A2]; [rewrite A2; exact A1 | now right].
Qed.

(** A state that differs in fields other than the three comes after. *)
Lemma grows_same s s' :
  output_stream s' = output_stream s -> sort_calls s' = sort_calls s ->
  add_imports s' = add_imports s \/ add_imports s' = [] ->
  grows s s'.
Proof.
  intros O K A. split; [exists ""; now rewrite append_nil_r
                       | exists []; now rewrite app_nil_r | exact A].
Qed.

Section Forward.

Variable ext : Collaborators.
Variable config : settings.Config.
Variable extension : string.

Lemma inject_alone_grows line s : grows s (inject_alone line s).
Proof.
  unfold inject_alone. destruct (some (add_imports s) && _ && _ && _ && _);
    [apply grows_same; fields; auto | apply grows_refl].
Qed.

Lemma inject_into_section_grows s : grows s (inject_into_section s).
Proof.
  unfold inject_into_section. destruct (some (add_imports s) && _);
    [apply grows_same; fields; auto | apply grows_refl].
Qed.

Lemma write_grows text s : grows s (write text s).
Proof.
  split; fields; [eauto | exists []; now rewrite app_nil_r | now left].
Qed.

Lemma write_sorted_grows s s' :
  write_sorted ext config extension s = Returns s' -> grows s s'.
Proof.
  unfold write_sorted, dedent_section.
  assert (G : grows s (strip_first_section s)).
  { unfold strip_first_section. destruct (first_import_section s && _);
      [apply grows_same; fields; auto | apply grows_refl]. }
  revert G. generalize (strip_first_section s). intros s0 G.
  destruct (nonempty (indent s0)).
  - destruct (split (line_separator s0) (import_section s0)); cbn [bind];
      [|discriminate].
    intros [= <-]. eapply grows_trans; [exact G|].
    split; fields; [eauto | eauto | now left].
  - cbn [bind]. intros [= <-]. eapply grows_trans; [exact G|].
    split; fields; [eauto | eauto | now left].
Qed.

Lemma flush_grows line s s' :
  flush ext config extension line s = Returns s' -> grows s s'.
Proof.
  unfold flush.
  pose proof (inject_alone_grows line s) as G1.
  revert G1. generalize (inject_alone line s). intros s1 G1.
  destruct (nonempty (import_section s1)).
  - pose proof (inject_into_section_grows s1) as G2.
    revert G2. generalize (inject_into_section s1). intros s2 G2.
    set (s3 := if negb (nonempty (indent s2)) then _ else s2).
    assert (G3 : grows s2 s3).
    { subst s3. destruct (negb (nonempty (indent s2)));
        [apply grows_same; fields; auto | apply grows_refl]. }
    clearbody s3.
    destruct (if negb (contains_imports s3) then _ else _) as [s4|e|] eqn:E;
      cbn [bind]; try discriminate.
    assert (G4 : grows s3 s4).
    { destruct (negb (contains_imports s3)).
      - injection E as <-. apply write_grows.
      - now apply write_sorted_grows. }
    intros [= <-].
    eapply grows_trans; [exact G1|]. eapply grows_trans; [exact G2|].
    eapply grows_trans; [exact G3|]. eapply grows_trans; [exact G4|].
    destruct (nonempty (indent s4)).
    + eapply grows_trans; [apply (write_grows line)|].
      apply grows_same; fields; auto.
    + apply grows_same; fields; auto.
  - intros [= <-]. eapply grows_trans; [exact G1 | apply write_grows].
Qed.

Lemma readline_suffix input line rest :
  readline input = (line, rest) -> exists pulled, input = (pulled ++ rest)%list.
Proof.
  destruct input as [|l r]; cbn [readline]; intros [= <- <-];
    [exists [] | exists [l]]; reflexivity.
Qed.

Lemma backslash_lines_suffix fuel : forall line stripped_line section input pulled,
  backslash_lines fuel line stripped_line section input = Returns pulled ->
  exists taken, input = (taken ++ snd pulled)%list.
Proof.
  induction fuel as [|fuel IH]; intros line st sec input pulled; cbn [backslash_lines];
    [discriminate|].
  destruct (nonempty st && endswith st (chr backslash)).
  - destruct (readline input) as [next input'] eqn:R. intros H.
    apply IH in H. destruct H as [taken H].
    apply readline_suffix in R. destruct R as [first ->].
    exists (first ++ taken)%list. now rewrite H, app_assoc.
  - intros [= <-]. exists []. reflexivity.
Qed.

Lemma paren_lines_suffix fuel : forall line stripped_line section input pulled,
  paren_lines fuel line stripped_line section input = Returns pulled ->
  exists taken, input = (taken ++ snd pulled)%list.
Proof.
  induction fuel as [|fuel IH]; intros line st sec input pulled; cbn [paren_lines];
    [discriminate|].
  destruct (negb (contains ")" st)).
  - destruct (readline input) as [next input'] eqn:R. intros H.
    apply IH in H. destruct H as [taken H].
    apply readline_suffix in R. destruct R as [first ->].
    exists (first ++ taken)%list. now rewrite H, app_assoc.
  - intros [= <-]. exists []. reflexivity.
Qed.

Lemma continuation_suffix fuel : forall line stripped_line section input pulled,
  continuation fuel line stripped_line section input = Returns pulled ->
  exists taken, input = (taken ++ snd pulled)%list.
Proof.
  induction fuel as [|fuel IH]; intros line st sec input pulled; cbn [continuation];
    [discriminate|].
  destruct (endswith st (chr backslash) || _).
  - destruct (if endswith st (chr backslash)
              then backslash_lines fuel line st sec input
              else paren_lines fuel line st sec input)
      as [[[[l1 st1] sec1] r1]|e|] eqn:E; cbn [bind]; try discriminate.
    intros H. apply IH in H. destruct H as [taken2 H].
    assert (exists taken1, input = (taken1 ++ r1)%list) as [taken1 ->].
    { destruct (endswith st (chr backslash));
        [apply backslash_lines_suffix in E | apply paren_lines_suffix in E];
        exact E. }
    exists (taken1 ++ taken2)%list. now rewrite H, app_assoc.
  - intros [= <-]. exists []. reflexivity.
Qed.

Lemma classify_suffix fuel line input s s4 not_imports rest :
  classify fuel line input s = Returns (s4, not_imports, rest) ->
  exists taken, input = (taken ++ rest)%list.
Proof.
  unfold classify.
  repeat match goal with
         | |- context [if ?b then _ else _] => destruct b
         end; try (intros [= <- <- <-]; exists []; reflexivity).
  destruct (continuation fuel line (strip line) _ input)
    as [[[[l1 st1] sec1] r1]|e|] eqn:E; cbn [bind]; try discriminate.
  intros [= <- <- <-]. apply continuation_suffix in E. exact E.
Qed.

End Forward.

Section ForwardPass.

Variable ext : Collaborators.
Variable config : settings.Config.
Variable extension : string.

Lemma at_line_grows fuel index line input s s' rest :
  at_line ext config extension fuel index line input s = Returns (s', rest) ->
  grows s s' /\ exists taken, input = (taken ++ rest)%list.
Proof.
  intros H. apply at_line_parts in H.
  destruct H as (s1 & s4 & ni & Hs1 & Hsep & Hclass & Hl & Hflush).
  split; [|eapply classify_suffix; eassumption].
  assert (G1 : grows s s1).
  { destruct (settle_separator_cases _ _ _ Hs1) as (_ & [(_ & ->) | (_ & c & _ & ->)]);
      [apply grows_refl | apply grows_same; fields; auto]. }
  destruct (scanned_buffers config index line s1) as ([_ Ba _ _ _ _ Bo Bk] & _).
  destruct (classify_cases _ _ _ _ _ _ _ Hclass) as ((_ & _ & _ & Ka & _ & Ko & Kk) & _).
  assert (G4 : grows s1 s4).
  { apply grows_same; [congruence | congruence | left; congruence]. }
  destruct Hflush as [(_ & Hflush) | (_ & ->)].
  - apply flush_grows in Hflush.
    eapply grows_trans; [exact G1|]. eapply grows_trans; eassumption.
  - eapply grows_trans; eassumption.
Qed.

Lemma read_lines_grows fuel : forall index input s index' s',
  read_lines ext config extension fuel index input s = Returns (index', s') ->
  grows s s'.
Proof.
  induction fuel as [|fuel IH]; intros index input s index' s'; cbn [read_lines];
    [discriminate|].
  destruct input as [|line rest]; [intros [= <- <-]; apply grows_refl|].
  destruct (at_line ext config extension fuel index line rest s) as [[s1 rest1]|e|] eqn:E;
    cbn [bind]; try discriminate.
  intros H. apply IH in H. apply at_line_grows in E.
  eapply grows_trans; [apply E | exact H].
Qed.

Lemma reachable_grows index s :
  reachable ext config extension index s -> grows (initial ext config) s.
Proof.
  induction 1 as [|index s fuel line input s' rest _ IH H]; [apply grows_refl|].
  eapply grows_trans; [exact IH | eapply at_line_grows; eassumption].
Qed.

End ForwardPass.

(** X7.  The engine makes one forward pass.  An iteration of the loop only
    adds to the end of what was written, and to the list of texts handed to
    the sort contract; and it leaves of the stream a tail of what it found:
    nothing written is changed afterwards, no line is read twice. *)
Theorem one_forward_pass (ext : Collaborators) (config : settings.Config)
  (extension : string) (fuel : nat) (index : Z) (line : string)
  (input : list string) (s s' : Scan) (rest : list string) :
  at_line ext config extension fuel index line input s = Returns (s', rest) ->
  (exists written, output_stream s' = output_stream s ++ written)
  /\ (exists calls, sort_calls s' = (sort_calls s ++ calls)%list)
  /\ (exists taken, input = (taken ++ rest)%list).
Proof.
  intros H. apply at_line_grows in H. destruct H as ([O K _] & T). auto.
Qed.

Lemma one_forward_pass_witness :
  exists s',
    at_line Stub.unchanged Stub.DEFAULT_CONFIG "py" 9 0 (L "from a import (")
      [L "    b,"; L ")"; L "x = 1"] (initial Stub.unchanged Stub.DEFAULT_CONFIG)
    = Returns (s', [L "x = 1"])
    /\ (exists written,
          output_stream s'
          = output_stream (initial Stub.unchanged Stub.DEFAULT_CONFIG) ++ written)
    /\ (exists calls,
          sort_calls s'
          = (sort_calls (initial Stub.unchanged Stub.DEFAULT_CONFIG) ++ calls)%list)
    /\ (exists taken, [L "    b,"; L ")"; L "x = 1"] = (taken ++ [L "x = 1"])%list).
Proof.
  eexists. split; [vm_compute; reflexivity|].
  apply (one_forward_pass Stub.unchanged Stub.DEFAULT_CONFIG "py" 9 0
           (L "from a import (") [L "    b,"; L ")"; L "x = 1"]
           (initial Stub.unchanged Stub.DEFAULT_CONFIG) _ [L "x = 1"]).
  vm_compute. reflexivity.
Defined.

(** X8.  The line separator is settled by the first line read and stays: a
    configured line ending is kept; without one, the separator is the last
    character of the first line, whatever that character is, and no later
    line changes it. *)
Theorem line_separator_settled (ext : Collaborators) (config : settings.Config)
  (extension : string) (fuel : nat) (index : Z) (line : string)
  (input : list string) (s s' : Scan) (rest : list string) :
  at_line ext config extension fuel index line input s = Returns (s', rest) ->
  nonempty (line_separator s') = true
  /\ (nonempty (line_separator s) = true -> line_separator s' = line_separator s)
  /\ (nonempty (line_separator s) = false -> last_char line = Some (line_separator s')).
Proof.
  intros H. apply at_line_parts in H.
  destruct H as (s1 & s4 & ni & Hs1 & Hsep & Hclass & Hl & Hflush).
  assert (E : line_separator s' = line_separator s1).
  { destruct Hflush as [(_ & Hflush) | (_ & ->)]; [|exact Hl].
    apply flush_cases in Hflush; [|congruence].
    destruct Hflush as ((_ & _ & _ & Fl) & _). congruence. }
  rewrite E. split; [exact Hsep|].
  destruct (settle_separator_cases _ _ _ Hs1) as (_ & [(N & ->) | (N & c & Hc & ->)]).
  - split; [reflexivity | congruence].
  - split; [congruence | intros _; exact Hc].
Qed.

Lemma line_separator_settled_witness :
  exists s',
    at_line Stub.unchanged Stub.DEFAULT_CONFIG "py" 9 0 "x = 1" []
      (initial Stub.unchanged Stub.DEFAULT_CONFIG) = Returns (s', [])
    /\ nonempty (line_separator s') = true
    /\ (nonempty (line_separator (initial Stub.unchanged Stub.DEFAULT_CONFIG)) = true ->
        line_separator s' = line_separator (initial Stub.unchanged Stub.DEFAULT_CONFIG))
    /\ (nonempty (line_separator (initial Stub.unchanged Stub.DEFAULT_CONFIG)) = false ->
        last_char "x = 1" = Some (line_separator s')).
Proof.
  eexists. split; [vm_compute; reflexivity|].
  apply (line_separator_settled Stub.unchanged Stub.DEFAULT_CONFIG "py" 9 0 "x = 1" []
           (initial Stub.unchanged Stub.DEFAULT_CONFIG) _ []).
  vm_compute. reflexivity.
Defined.

(** X9.  The statements to add are used whole and once: between two
    iterations the engine still holds all of them, formatted, or none. *)
Theorem additions_all_or_none (ext : Collaborators) (config : settings.Config)
  (extension : string) (index : Z) (s : Scan) :
  reachable ext config extension index s ->
  add_imports s = map (format_natural ext) (settings.add_imports config)
  \/ add_imports s = [].
Proof.
  intros R. destruct (reachable_grows _ _ _ _ _ R) as [_ _ A]. exact A.
Qed.

Lemma additions_all_or_none_witness :
  exists s',
    at_line Stub.unchanged (Stub.adding ["import os"] false) "py" 9 0 (L "x = 1") []
      (initial Stub.unchanged (Stub.adding ["import os"] false)) = Returns (s', [])
    /\ (add_imports s'
        = map (format_natural Stub.unchanged)
            (settings.add_imports (Stub.adding ["import os"] false))
        \/ add_imports s' = []).
Proof.
  eexists. split; [vm_compute; reflexivity|].
  apply (additions_all_or_none Stub.unchanged (Stub.adding ["import os"] false) "py"
           (0 + 1)).
  apply (reach_line _ _ _ 0 (initial Stub.unchanged (Stub.adding ["import os"] false))
           9 (L "x = 1") [] _ []);
    [apply reach_initial | vm_compute; reflexivity].
Defined.

(** ** Where the statements to add go *)

Section Additions.

Variable ext : Collaborators.
Variable config : settings.Config.
Variable extension : string.

(** What the flush of an unindented section with imports comes to. *)
Lemma flush_unindented_result (line : string) (s : Scan) :
  nonempty (import_section s) = true ->
  add_imports s = [] ->
  contains_imports s = true ->
  nonempty (indent s) = false ->
  exists s' text,
    flush ext config extension line s = Returns s'
    /\ (text = import_section s ++ line
        \/ text = lstrip_chars (line_separator s) (import_section s ++ line))
    /\ sort_calls s' = (sort_calls s ++ [text])%list
    /\ output_stream s' = output_stream s ++ sorted_section ext config extension text
    /\ add_imports s' = [] /\ import_section s' = "".
Proof.
  intros Hs Ha Hc Hi.
  rewrite (flush_unindented ext config extension line s Hs Ha Hc Hi). cbv zeta.
  set (s3 := strip_first_section (set_import_section (import_section s ++ line) s)).
  assert (F : output_stream s3 = output_stream s /\ sort_calls s3 = sort_calls s
              /\ add_imports s3 = add_imports s
              /\ (import_section s3 = import_section s ++ line
                  \/ import_section s3
                     = lstrip_chars (line_separator s) (import_section s ++ line))).
  { subst s3. unfold strip_first_section.
    destruct (first_import_section _ && _); fields; auto. }
  destruct F as (Fo & Fk & Fa & Fs).
  exists (set_import_section "" (set_contains_imports false
            (write (sorted_section ext config extension (import_section s3))
               (note_sort_call (import_section s3) s3)))),
    (import_section s3).
  fields. rewrite Fo, Fk, Fa. auto 10.
Qed.

(** X10.  With statements to add and no section open, a line that is not an
    import line and does not begin a comment or a string, met outside the top
    comment and outside a literal, makes them a section of their own: joined
    by the line separator, one more separator after them, then the line
    itself.  That text (less leading separator characters if it is the first
    section) goes to the sort contract, what the contract returns is written,
    and nothing is left to add. *)
Theorem additions_become_section (line : string) (s : Scan) :
  some (add_imports s) = true ->
  in_top_comment s = false ->
  nonempty (in_quote s) = false ->
  nonempty (import_section s) = false ->
  nonempty (indent s) = false ->
  nonempty (line_separator s) = true ->
  startswith_any (lstrip line) COMMENT_INDICATORS = false ->
  let body := (join (line_separator s) (add_imports s) ++ line_separator s) ++ line in
  exists s' text,
    flush ext config extension line s = Returns s'
    /\ (text = body \/ text = lstrip_chars (line_separator s) body)
    /\ sort_calls s' = (sort_calls s ++ [text])%list
    /\ output_stream s' = output_stream s ++ sorted_section ext config extension text
    /\ add_imports s' = [] /\ import_section s' = "".
Proof.
  intros Ha Ht Hq Hs Hi Hsep Hc body.
  set (s1 := set_add_imports []
               (set_contains_imports true
                  (set_import_section
                     (join (line_separator s) (add_imports s) ++ line_separator s) s))).
  assert (E : inject_alone line s = s1).
  { unfold inject_alone. rewrite Ha, Ht, Hq, Hs, Hc. reflexivity. }
  rewrite flush_after_inject_alone, E.
  destruct (flush_unindented_result line s1) as (s' & text & F & T & K & O & A & S);
    [subst s1; fields; now apply nonempty_append_r | reflexivity | reflexivity
     | exact Hi |].
  exists s', text. subst s1. fields in T. fields in K. fields in O. auto 10.
Qed.


(** X12.  Where the statements to add are not used.  With no section open, a
    line in the top comment, a line after which a literal is open, and a line
    that begins a comment or a string are written as they are, the statements
    still waiting.  And an indented section is flushed without them: they are
    kept for a later, unindented place. *)
Theorem additions_wait (line : string) (s : Scan) :
  (nonempty (import_section s) = false ->
   in_top_comment s = true \/ nonempty (in_quote s) = true
   \/ startswith_any (lstrip line) COMMENT_INDICATORS = true ->
   flush ext config extension line s = Returns (write line s))
  /\ (nonempty (import_section s) = true ->
      contains_imports s = true ->
      nonempty (indent s) = true ->
      nonempty (line_separator s) = true ->
      exists s', flush ext config extension line s = Returns s'
                 /\ add_imports s' = add_imports s).
Proof.
  split.
  - intros Hs Hguard. apply flush_no_section; [exact Hs|].
    unfold inject_alone.
    destruct Hguard as [H | [H | H]]; rewrite H;
      rewrite ?andb_false_r; reflexivity.
  - intros Hs Hc Hi Hsep.
    destruct (split_some (line_separator s) (import_section (strip_first_section s))
                Hsep) as [pieces Hp].
    rewrite (flush_indented ext config extension line s pieces Hs Hc Hi Hp).
    eexists. split; [reflexivity|]. cbv zeta. fields.
    unfold strip_first_section. destruct (first_import_section s && _); reflexivity.
Qed.

End Additions.

Lemma additions_become_section_witness :
  exists s' text,
    flush Stub.unchanged (Stub.adding ["import os"] false) "py" (L "x = 1")
      (set_line_separator nl (initial Stub.unchanged (Stub.adding ["import os"] false)))
    = Returns s'
    /\ (text = (join nl ["import os"] ++ nl) ++ L "x = 1"
        \/ text = lstrip_chars nl ((join nl ["import os"] ++ nl) ++ L "x = 1"))
    /\ sort_calls s' = [text]
    /\ output_stream s' = text
    /\ add_imports s' = [] /\ import_section s' = "".
Proof.
  apply (additions_become_section Stub.unchanged (Stub.adding ["import os"] false) "py"
           (L "x = 1")
           (set_line_separator nl
              (initial Stub.unchanged (Stub.adding ["import os"] false))));
    reflexivity.
Defined.


Lemma additions_wait_witness :
  flush Stub.unchanged Stub.DEFAULT_CONFIG "py" (L "# a comment")
    (set_add_imports ["import os"] (initial Stub.unchanged Stub.DEFAULT_CONFIG))
  = Returns (write (L "# a comment")
               (set_add_imports ["import os"]
                  (initial Stub.unchanged Stub.DEFAULT_CONFIG)))
  /\ exists s',
       flush Stub.unchanged Stub.DEFAULT_CONFIG "py" (L "x = 1")
         (set_add_imports ["import os"] indented_import_buffered) = Returns s'
       /\ add_imports s' = ["import os"].
Proof.
  split.
  - apply (proj1 (additions_wait Stub.unchanged Stub.DEFAULT_CONFIG "py"
                    (L "# a comment")
                    (set_add_imports ["import os"]
                       (initial Stub.unchanged Stub.DEFAULT_CONFIG))));
      [reflexivity | right; right; reflexivity].
  - apply (proj2 (additions_wait Stub.unchanged Stub.DEFAULT_CONFIG "py" (L "x = 1")
                    (set_add_imports ["import os"] indented_import_buffered)));
      reflexivity.
Defined.

(** ** The continuation loops *)

Lemma paren_lines_hangs (input : list string) : forall fuel line stripped_line section,
  contains ")" stripped_line = false ->
  Forall (fun l => contains ")" (before_hash (strip l)) = false) input ->
  paren_lines fuel line stripped_line section input = OutOfFuel.
Proof.
  induction input as [|next input IH]; intros fuel line st sec Hopen Hall.
  - now apply paren_lines_at_end.
  - destruct fuel as [|fuel]; [reflexivity|]. cbn [paren_lines readline].
    rewrite Hopen. cbn [negb]. inversion Hall; subst. now apply IH.
Qed.

Lemma first_closing (input : list string) :
  Exists (fun l => contains ")" (before_hash (strip l)) = true) input ->
  exists before closing rest,
    input = (before ++ closing :: rest)%list
    /\ Forall (fun l => contains ")" (before_hash (strip l)) = false) before
    /\ contains ")" (before_hash (strip closing)) = true.
Proof.
  induction input as [|next input IH]; intros H; [inversion H|].
  destruct (contains ")" (before_hash (strip next))) eqn:E.
  - exists [], next, input. auto.
  - inversion H as [? ? Hn | ? ? Hr]; subst; [congruence|].
    destruct (IH Hr) as (before & closing & rest & -> & Hb & Hc).
    exists (next :: before), closing, rest. auto.
Qed.

(** X13.  The loop that waits for a closing parenthesis (lines 239-242) ends
    if and only if one of the lines still in the stream has a closing
    parenthesis before any [#]; a parenthesis in a comment does not count, and
    the end of the stream does not end the loop. *)
Theorem paren_lines_terminates (line stripped_line section : string)
  (input : list string) :
  contains ")" stripped_line = false ->
  (exists fuel pulled, paren_lines fuel line stripped_line section input = Returns pulled)
  <-> Exists (fun l => contains ")" (before_hash (strip l)) = true) input.
Proof.
  intros Hopen. split.
  - intros (fuel & pulled & H).
    destruct (Exists_dec (fun l => contains ")" (before_hash (strip l)) = true) input)
      as [E|E]; [intros l; destruct (contains ")" (before_hash (strip l))); auto;
                 right; discriminate | exact E |].
    rewrite paren_lines_hangs in H; [discriminate | exact Hopen |].
    apply Forall_forall. intros l Hin.
    destruct (contains ")" (before_hash (strip l))) eqn:C; [|reflexivity].
    exfalso. apply E. apply Exists_exists. eauto.
  - intros E. destruct (first_closing input E) as (before & closing & rest & -> & Hb & Hc).
    eexists. eexists. apply paren_lines_pulls; eassumption.
Qed.

Lemma paren_lines_terminates_witness :
  (exists fuel pulled,
     paren_lines fuel (L "from a import (") "from a import (" (L "from a import (")
       [L "    b,  # )"; L ")"] = Returns pulled)
  <-> Exists (fun l => contains ")" (before_hash (strip l)) = true)
        [L "    b,  # )"; L ")"].
Proof.
  apply (paren_lines_terminates (L "from a import (") "from a import ("
           (L "from a import (") [L "    b,  # )"; L ")"]).
  reflexivity.
Defined.


(** X15.  The loop that follows backslashes (lines 234-237) takes lines as
    long as the one before, stripped and cut at the first [#], is not empty
    and ends in a backslash; the first line that is empty or does not end in
    one is the last it takes.  At the end of the stream it stops by itself,
    having taken what there was. *)
Theorem backslash_lines_pulls (before : list string) :
  forall (last : string) (rest : list string) (line stripped_line section : string),
  nonempty stripped_line && endswith stripped_line (chr backslash) = true ->
  Forall (fun l => nonempty (before_hash (strip l))
                   && endswith (before_hash (strip l)) (chr backslash) = true) before ->
  (nonempty (before_hash (strip last))
   && endswith (before_hash (strip last)) (chr backslash) = false ->
   backslash_lines (S (S (List.length before))) line stripped_line section
     (before ++ last :: rest)%list
   = Returns (last, before_hash (strip last),
              section ++ fold_right append "" before ++ last, rest))
  /\ backslash_lines (S (S (List.length before))) line stripped_line section before
     = Returns ("", "", section ++ fold_right append "" before, []).
Proof.
  induction before as [|next before IH]; intros last rest line st sec Hcont Hall.
  - cbn [List.length app backslash_lines fold_right readline].
    rewrite Hcont. split.
    + intros Hlast. rewrite Hlast. reflexivity.
    + cbn. now rewrite append_nil_r.
  - inversion Hall as [|? ? Hnext Hrest]; subst.
    destruct (IH last rest next (before_hash (strip next)) (sec ++ next) Hnext Hrest)
      as (IH1 & IH2).
    split.
    + intros Hlast.
      change (backslash_lines (S (S (List.length (next :: before)))) line st sec
                ((next :: before) ++ last :: rest)%list)
        with (if nonempty st && endswith st (chr backslash)
              then backslash_lines (S (S (List.length before))) next
                     (before_hash (strip next)) (sec ++ next)
                     (before ++ last :: rest)%list
              else Returns (line, st, sec, ((next :: before) ++ last :: rest)%list)).
      rewrite Hcont, (IH1 Hlast). cbn [fold_right]. now rewrite !append_assoc.
    + change (backslash_lines (S (S (List.length (next :: before)))) line st sec
                (next :: before))
        with (if nonempty st && endswith st (chr backslash)
              then backslash_lines (S (S (List.length before))) next
                     (before_hash (strip next)) (sec ++ next) before
              else Returns (line, st, sec, next :: before)).
      rewrite Hcont, IH2. cbn [fold_right]. now rewrite !append_assoc.
Qed.

Lemma backslash_lines_pulls_witness :
  backslash_lines 3 (L "import a, \") "import a, \" (L "import a, \")
    [L "    b, \"; L "    c"; L "x = 1"]
  = Returns (L "    c", before_hash (strip (L "    c")),
             L "import a, \" ++ fold_right append "" [L "    b, \"] ++ L "    c",
             [L "x = 1"]).
Proof.
  apply (proj1 (backslash_lines_pulls [L "    b, \"] (L "    c") [L "x = 1"]
                  (L "import a, \") "import a, \" (L "import a, \")
                  eq_refl ltac:(repeat constructor))).
  reflexivity.
Defined.

(** ** The indentation recorded for a section *)

Lemma lstrip_length (text : string) :
  String.length (lstrip text) <= String.length text.
Proof.
  induction text as [|c text IH]; cbn [lstrip]; [auto|].
  destruct (is_space c); cbn [String.length]; lia.
Qed.

(** [line[: -len(line.lstrip())]] is the whitespace the line begins with,
    when the line is not all whitespace. *)
Lemma leading_whitespace (line : string) :
  nonempty (lstrip line) = true ->
  slice_to_neg (String.length (lstrip line)) line ++ lstrip line = line
  /\ forallb is_space
       (list_ascii_of_string (slice_to_neg (String.length (lstrip line)) line)) = true.
Proof.
  intros Hne. unfold slice_to_neg.
  destruct (String.length (lstrip line)) eqn:E.
  { destruct (lstrip line); [discriminate Hne | discriminate E]. }
  rewrite <- E. clear E n.
  induction line as [|c line IH]; [discriminate Hne|].
  cbn [lstrip] in *. destruct (is_space c) eqn:S.
  - pose proof (lstrip_length line) as Hlen.
    replace (String.length (String c line) - String.length (lstrip line))
      with (Datatypes.S (String.length line - String.length (lstrip line)))
      by (cbn [String.length]; lia).
    cbn [take append list_ascii_of_string forallb].
    destruct (IH Hne) as (IH1 & IH2). rewrite IH1, IH2, S. auto.
  - rewrite Nat.sub_diag. cbn. auto.
Qed.

Lemma import_start_not_comment (stripped_line : string) :
  startswith_any stripped_line IMPORT_START_IDENTIFIERS = true ->
  String.eqb stripped_line "# isort: off" = false
  /\ String.eqb stripped_line "# isort: split" = false
  /\ is_empty stripped_line || startswith stripped_line "#" = false.
Proof.
  destruct stripped_line as [|c r]; [discriminate|]. intros H.
  destruct (Ascii.eqb_spec c "#"%char) as [->|N]; [discriminate H|].
  apply Ascii.eqb_neq in N.
  cbn [String.eqb is_empty nonempty negb orb startswith].
  rewrite N. rewrite Ascii.eqb_sym in N. rewrite N. auto.
Qed.

(** X16.  An import line outside a literal, outside the top comment and with
    sorting on marks the section as containing imports and records as its
    indentation the whitespace the line begins with: the indentation followed
    by the line without its leading whitespace is the line, and the
    indentation is whitespace only.  A later import line of the same section
    replaces it. *)
Theorem recorded_indent (fuel : nat) (line : string) (input : list string)
  (s s4 : Scan) (not_imports : bool) (rest : list string) :
  nonempty (in_quote s) = false ->
  in_top_comment s = false ->
  isort_off s = false ->
  startswith_any (strip line) IMPORT_START_IDENTIFIERS = true ->
  classify fuel line input s = Returns (s4, not_imports, rest) ->
  not_imports = false
  /\ contains_imports s4 = true
  /\ indent s4 ++ lstrip line = line
  /\ forallb is_space (list_ascii_of_string (indent s4)) = true.
Proof.
  intros Hq Ht Ho Hi. unfold classify. rewrite Hq, Ht, Ho. cbn [orb negb].
  destruct (import_start_not_comment _ Hi) as (-> & -> & ->). rewrite Hi.
  destruct (continuation fuel line (strip line) _ input)
    as [[[[l1 st1] sec1] r1]|e|]; cbn [bind]; try discriminate.
  intros [= <- <- <-]. fields.
  assert (Hne : nonempty (lstrip line) = true).
  { destruct (lstrip line) eqn:E; [|reflexivity].
    unfold strip in Hi. rewrite E in Hi. discriminate Hi. }
  destruct (leading_whitespace line Hne). auto.
Qed.

Lemma recorded_indent_witness :
  exists s4 rest,
    classify 9 (L "    import os") [] (state_after [L "if x:"])
    = Returns (s4, false, rest)
    /\ contains_imports s4 = true
    /\ indent s4 ++ lstrip (L "    import os") = L "    import os"
    /\ forallb is_space (list_ascii_of_string (indent s4)) = true.
Proof.
  eexists. eexists. split; [vm_compute; reflexivity|].
  apply (recorded_indent 9 (L "    import os") [] (state_after [L "if x:"]) _ false []);
    vm_compute; reflexivity.
Defined.

(** ** Streams without an opening parenthesis *)

Lemma contains_chr (c : ascii) (text : string) :
  contains (chr c) text = mem_char c text.
Proof.
  induction text as [|a text IH]; cbn [contains startswith chr mem_char]; [reflexivity|].
  replace (startswith text "") with true by (destruct text; reflexivity).
  rewrite andb_true_r. destruct (Ascii.eqb c a); [reflexivity | exact IH].
Qed.

Lemma mem_char_lstrip c text : mem_char c (lstrip text) = true -> mem_char c text = true.
Proof.
  induction text as [|a text IH]; cbn [lstrip]; [auto|].
  destruct (is_space a); [|auto]. intros H. cbn [mem_char]. rewrite (IH H).
  apply orb_true_r.
Qed.

Lemma mem_char_rstrip c text : mem_char c (rstrip text) = true -> mem_char c text = true.
Proof.
  induction text as [|a text IH]; cbn [rstrip]; [auto|].
  destruct (rstrip text) as [|b r].
  - destruct (is_space a); cbn [mem_char]; [discriminate|].
    rewrite orb_false_r. intros ->. reflexivity.
  - cbn [mem_char] in *. intros H. apply orb_prop in H.
    destruct H as [-> | H]; [reflexivity|]. rewrite (IH H). apply orb_true_r.
Qed.

Lemma mem_char_before_hash c text :
  mem_char c (before_hash text) = true -> mem_char c text = true.
Proof.
  induction text as [|a text IH]; cbn [before_hash]; [auto|].
  destruct (Ascii.eqb a hash); [discriminate|].
  cbn [mem_char]. intros H. apply orb_prop in H.
  destruct H as [-> | H]; [reflexivity|]. rewrite (IH H). apply orb_true_r.
Qed.

Lemma no_paren_stripped (text : string) :
  contains "(" text = false ->
  contains "(" (strip text) = false
  /\ contains "(" (before_hash (strip text)) = false.
Proof.
  change "(" with (chr "("%char). rewrite !contains_chr. intros H.
  assert (S : mem_char "(" (strip text) = false).
  { destruct (mem_char "(" (strip text)) eqn:E; [|reflexivity].
    unfold strip in E. apply mem_char_rstrip, mem_char_lstrip in E. congruence. }
  split; [exact S|].
  destruct (mem_char "(" (before_hash (strip text))) eqn:E; [|reflexivity].
  apply mem_char_before_hash in E. congruence.
Qed.

Section Terminates.

Variable ext : Collaborators.
Variable config : settings.Config.
Variable extension : string.

Lemma backslash_lines_ends (input : list string) : forall fuel line stripped_line section,
  List.length input + 2 <= fuel ->
  Forall (fun l => contains "(" l = false) input ->
  contains "(" stripped_line = false ->
  exists line' stripped_line' section' rest,
    backslash_lines fuel line stripped_line section input
    = Returns (line', stripped_line', section', rest)
    /\ endswith stripped_line' (chr backslash) = false
    /\ contains "(" stripped_line' = false.
Proof.
  assert (Exit : forall st, nonempty st && endswith st (chr backslash) = false ->
                            endswith st (chr backslash) = false).
  { intros [|a st]; [reflexivity | cbn [nonempty andb]; auto]. }
  induction input as [|next input IH]; intros fuel line st sec Hfuel Hall Hst.
  - destruct fuel as [|[|fuel]]; cbn [List.length] in Hfuel; try lia.
    cbn [backslash_lines readline].
    destruct (nonempty st && endswith st (chr backslash)) eqn:C.
    + cbn. eauto 10.
    + eauto 10.
  - destruct fuel as [|fuel]; cbn [List.length] in Hfuel; try lia.
    cbn [backslash_lines readline].
    destruct (nonempty st && endswith st (chr backslash)) eqn:C; [|eauto 10].
    inversion Hall; subst. apply IH; [lia | assumption |].
    now apply no_paren_stripped.
Qed.

Lemma continuation_returns fuel line stripped_line section input :
  List.length input + 3 <= fuel ->
  Forall (fun l => contains "(" l = false) input ->
  contains "(" stripped_line = false ->
  exists pulled,
    continuation fuel line stripped_line section input = Returns pulled.
Proof.
  intros Hfuel Hall Hst.
  destruct fuel as [|fuel]; [lia|]. cbn [continuation].
  rewrite Hst. cbn [andb]. rewrite orb_false_r.
  destruct (endswith stripped_line (chr backslash)); [|eauto].
  destruct (backslash_lines_ends input fuel line stripped_line section
              ltac:(lia) Hall Hst) as (l' & st' & sec' & rest & -> & He & Hp).
  cbn [bind]. destruct fuel as [|fuel]; [lia|]. cbn [continuation].
  rewrite He, Hp. cbn. eauto.
Qed.

Lemma classify_returns fuel line input s :
  List.length input + 3 <= fuel ->
  Forall (fun l => contains "(" l = false) input ->
  contains "(" line = false ->
  exists s4 not_imports rest,
    classify fuel line input s = Returns (s4, not_imports, rest).
Proof.
  intros Hfuel Hall Hline. unfold classify.
  repeat match goal with
         | |- context [if ?b then _ else _] => destruct b
         end; eauto.
  destruct (continuation_returns fuel line (strip line)
              (import_section (set_indent (slice_to_neg (String.length (lstrip line)) line)
                                 (set_contains_imports true s)) ++ line)
              input Hfuel Hall (proj1 (no_paren_stripped line Hline)))
    as ([[[l1 st1] sec1] r1] & ->).
  cbn [bind]. eauto.
Qed.

Lemma flush_returns line s :
  nonempty (line_separator s) = true ->
  exists s', flush ext config extension line s = Returns s'.
Proof.
  intros Hsep.
  destruct (flush ext config extension line s) as [s'|e|] eqn:F; [eauto | |].
  - exfalso. revert F. unfold flush.
    destruct (inject_alone_cases line s Hsep) as ((_ & _ & _ & S1) & _).
    revert S1. generalize (inject_alone line s). intros s1 S1.
    destruct (nonempty (import_section s1)); [|discriminate].
    assert (S2 : line_separator (inject_into_section s1) = line_separator s).
    { unfold inject_into_section. destruct (some _ && _); fields; exact S1. }
    revert S2. generalize (inject_into_section s1). intros s2 S2.
    set (s3 := if negb (nonempty (indent s2)) then _ else s2).
    assert (S3 : line_separator s3 = line_separator s).
    { subst s3. destruct (negb (nonempty (indent s2))); fields; exact S2. }
    clearbody s3.
    destruct (negb (contains_imports s3)); cbn [bind]; [discriminate|].
    unfold write_sorted, dedent_section.
    assert (S4 : line_separator (strip_first_section s3) = line_separator s).
    { rewrite <- S3. apply strip_first_section_fields. }
    revert S4. generalize (strip_first_section s3). intros s4 S4.
    destruct (nonempty (indent s4)); cbn [bind]; [|discriminate].
    destruct (split_some (line_separator s4) (import_section s4)) as [pieces ->];
      [congruence|].
    cbn [bind]. discriminate.
  - exfalso. revert F. unfold flush, write_sorted, dedent_section.
    repeat match goal with
           | |- context [if ?b then _ else _] => destruct b; cbn [bind]
           | |- context [match split ?a ?b with _ => _ end] =>
               destruct (split a b); cbn [bind]
           end; discriminate.
Qed.

Lemma at_line_returns fuel index line input s :
  List.length input + 3 <= fuel ->
  nonempty line = true ->
  contains "(" line = false ->
  Forall (fun l => contains "(" l = false) input ->
  exists s' rest,
    at_line ext config extension fuel index line input s = Returns (s', rest)
    /\ exists taken, input = (taken ++ rest)%list.
Proof.
  intros Hfuel Hne Hline Hall.
  destruct (settle_separator_returns line s (or_introl Hne)) as [s1 Hs1].
  destruct (classify_returns fuel line input (scanned config index line s1)
              Hfuel Hall Hline) as (s4 & ni & rest & Hclass).
  pose proof (classify_suffix _ _ _ _ _ _ _ Hclass) as Hsuffix.
  unfold at_line. rewrite Hs1. cbn [bind]. rewrite Hclass. cbn [bind].
  destruct ni; [|eauto].
  destruct (flush_returns line s4) as [s5 ->]; [|cbn [bind]; eauto].
  destruct (classify_cases _ _ _ _ _ _ _ Hclass) as ((_ & _ & Kl & _) & _).
  rewrite Kl, (same_line_separator _ _ (proj1 (scanned_buffers config index line s1))).
  apply (settle_separator_cases _ _ _ Hs1).
Qed.

Lemma read_lines_returns (n : nat) : forall input fuel index s,
  List.length input <= n ->
  n + 4 <= fuel ->
  Forall (fun l => nonempty l = true /\ contains "(" l = false) input ->
  exists read, read_lines ext config extension fuel index input s = Returns read.
Proof.
  induction n as [|n IH]; intros input fuel index s Hlen Hfuel Hall.
  - destruct input; [|cbn [List.length] in Hlen; lia].
    destruct fuel; [lia|]. cbn [read_lines]. eauto.
  - destruct fuel as [|fuel]; [lia|]. cbn [read_lines].
    destruct input as [|line rest]; [eauto|].
    inversion Hall as [|? ? (Hne & Hline) Hrest]; subst. cbn [List.length] in Hlen.
    assert (Hparen : Forall (fun l => contains "(" l = false) rest).
    { apply Forall_forall. intros l Hin.
      exact (proj2 (proj1 (Forall_forall _ _) Hrest l Hin)). }
    destruct (at_line_returns fuel index line rest s ltac:(lia) Hne Hline Hparen)
      as (s' & rest' & -> & taken & Hsuffix).
    cbn [bind]. apply IH; [|lia|].
    + rewrite Hsuffix, length_app in Hlen. lia.
    + rewrite Hsuffix in Hrest. apply Forall_app in Hrest. apply Hrest.
Qed.

Lemma at_end_returns index s :
  exists final, at_end ext config extension index s = Returns final.
Proof.
  unfold at_end. destruct (_ && _); [eauto|].
  apply flush_returns. destruct (nonempty (line_separator s)) eqn:E; [exact E|].
  reflexivity.
Qed.

End Terminates.

(** X18.  On a stream none of whose lines holds an opening parenthesis the
    engine terminates: with fuel for four more iterations than there are
    lines it returns.  The loop that follows backslashes always ends; only
    the one that waits for a closing parenthesis can fail to. *)
Theorem sort_imports_terminates (ext : Collaborators) (config : settings.Config)
  (extension : string) (input : list string) :
  Forall (fun l => nonempty l = true /\ contains "(" l = false) input ->
  exists final,
    sort_imports ext config extension (List.length input + 4) input = Returns final.
Proof.
  intros Hall. unfold sort_imports. rewrite sort_loop_read_lines.
  destruct (read_lines_returns ext config extension (List.length input) input
              (List.length input + 4) 0%Z (initial ext config)
              (le_n _) (le_n _) Hall) as ([index s] & ->).
  cbn [bind fst snd]. apply at_end_returns.
Qed.

Lemma sort_imports_terminates_witness :
  exists final,
    sort_imports Stub.unchanged Stub.DEFAULT_CONFIG "py"
      (List.length [L "import a, \"; L "    b"; L "x = 1"] + 4)
      [L "import a, \"; L "    b"; L "x = 1"] = Returns final.
Proof.
  apply (sort_imports_terminates Stub.unchanged Stub.DEFAULT_CONFIG "py"
           [L "import a, \"; L "    b"; L "x = 1"]).
  repeat constructor.
Defined.


(** ** The first section *)

Section FirstSection.

Variable ext : Collaborators.
Variable config : settings.Config.
Variable extension : string.




End FirstSection.


(** ** Two more readings of lemmas above *)

(** X14.  When the loop that waits for a closing parenthesis ends, it has
    taken the lines up to and including the first one whose text before any
    [#] holds a closing parenthesis, added them to the section in the order
    read, and left the rest of the stream. *)
Theorem paren_lines_gathers (before : list string) (closing : string)
  (rest : list string) (line stripped_line section : string) :
  contains ")" stripped_line = false ->
  Forall (fun l => contains ")" (before_hash (strip l)) = false) before ->
  contains ")" (before_hash (strip closing)) = true ->
  paren_lines (S (S (List.length before))) line stripped_line section
    (before ++ closing :: rest)%list
  = Returns (closing, before_hash (strip closing),
             section ++ String.concat "" before ++ closing, rest).
Proof. apply paren_lines_pulls. Qed.

Lemma paren_lines_gathers_witness :
  paren_lines 3 (L "from a import (") "from a import (" (L "from a import (")
    [L "    b,  # )"; L ")"; L "x = 1"]
  = Returns (L ")", before_hash (strip (L ")")),
             L "from a import (" ++ String.concat "" [L "    b,  # )"] ++ L ")",
             [L "x = 1"]).
Proof.
  apply (paren_lines_gathers [L "    b,  # )"] (L ")") [L "x = 1"] (L "from a import (")
           "from a import (" (L "from a import (")).
  - reflexivity.
  - repeat constructor.
  - reflexivity.
Defined.

(** X17.  With no statement to add, a stream of non-empty lines none of which
    begins, once stripped, with an import identifier comes out as it went in:
    the engine returns, the text written is the lines one after the other,
    and the sort contract is not called. *)
Theorem plain_stream_unchanged (ext : Collaborators) (config : settings.Config)
  (extension : string) (lines : list string) :
  settings.add_imports config = [] ->
  Forall plain lines ->
  exists final,
    sort_imports ext config extension (S (List.length lines)) lines = Returns final
    /\ output_stream final = fold_right append "" lines
    /\ sort_calls final = [].
Proof. apply sort_imports_plain. Qed.

Lemma plain_stream_unchanged_witness :
  exists final,
    sort_imports Stub.unchanged Stub.DEFAULT_CONFIG "py"
      (S (List.length [L "x = 1"; L "# done"; L ""]))
      [L "x = 1"; L "# done"; L ""] = Returns final
    /\ output_stream final = fold_right append "" [L "x = 1"; L "# done"; L ""]
    /\ sort_calls final = [].
Proof.
  apply (plain_stream_unchanged Stub.unchanged Stub.DEFAULT_CONFIG "py"
           [L "x = 1"; L "# done"; L ""]).
  - reflexivity.
  - repeat constructor.
Defined.

(** ** The two validations of atomic mode *)

Section Atomic.

Variable ext : Collaborators.

(** X20.  [sorted_imports] never raises [IntroducedSyntaxErrors], whatever
    the text, the configuration and the sort contract: the validation that
    follows the engine compiles the text that was given, which the validation
    before the engine has accepted already, and not the text that was
    written. *)
Theorem introduced_syntax_errors_unreachable fuel file_contents extension config
  is_default file_path disregard_skip config_kwargs :
  sorted_imports ext fuel file_contents extension config is_default file_path
    disregard_skip config_kwargs <> Raises IntroducedSyntaxErrors.
Proof.
  unfold sorted_imports.
  destruct (_config ext config is_default config_kwargs) as [[config' d]|e|] eqn:C;
    cbn [bind fst]; [| |discriminate].
  - destruct (skip_signal ext config' file_contents file_path disregard_skip)
      as [signal|] eqn:S.
    + unfold skip_signal in S.
      destruct (negb disregard_skip); [|discriminate].
      destruct (match file_path with
                | Some path => settings.is_skipped config' path
                | None => false
                end); [injection S as <-; discriminate|].
      destruct (existsb _ _); [injection S as <-; discriminate | discriminate].
    + unfold validated.
      destruct (settings.atomic config'), (compile ext file_contents); cbn [bind];
        try discriminate;
        (destruct (sort_imports ext config' extension fuel (io_lines file_contents))
           as [final|e|] eqn:E; cbn [bind]; try discriminate;
         intros [= ->]; apply sort_imports_raises in E; destruct E; discriminate).
  - unfold _config in C.
    destruct (some config_kwargs && negb is_default);
      [injection C as <-; discriminate|].
    destruct (some config_kwargs); discriminate.
Qed.

(** X21.  In atomic mode, past the skip checks: [ExistingSyntaxErrors] is
    raised exactly when [compile] raises [SyntaxError] on the text given, for
    every fuel; an exception of [compile] that is not a [SyntaxError] goes
    through as it is; and on a text that [compile] accepts the call does what
    the engine does: it returns the text the engine wrote when the engine
    returns, raises what the engine raises, and comes to no result when the
    engine does not. *)
Theorem atomic_validation fuel file_contents extension config is_default file_path
  disregard_skip config_kwargs config' is_default'
  (Hconfig : _config ext config is_default config_kwargs
             = Returns (config', is_default'))
  (Hatomic : settings.atomic config' = true)
  (Hskip : skip_signal ext config' file_contents file_path disregard_skip = None) :
  (sorted_imports ext fuel file_contents extension config is_default file_path
     disregard_skip config_kwargs = Raises ExistingSyntaxErrors
   <-> compile ext file_contents = SyntaxError)
  /\ (compile ext file_contents = NullCharacter ->
      sorted_imports ext fuel file_contents extension config is_default file_path
        disregard_skip config_kwargs = Raises ValueError)
  /\ (compile ext file_contents = Compiled ->
      sorted_imports ext fuel file_contents extension config is_default file_path
        disregard_skip config_kwargs
      = (final <- sort_imports ext config' extension fuel (io_lines file_contents) ;;
         Returns (output_stream final))).
Proof.
  rewrite (sorted_imports_unfold _ _ _ _ _ _ _ _ _ _ _ Hconfig), Hskip.
  unfold validated. rewrite Hatomic.
  destruct (compile ext file_contents); cbn [bind].
  - split; [|split; [discriminate | reflexivity]].
    split; [|discriminate].
    destruct (sort_imports ext config' extension fuel (io_lines file_contents))
      as [final|e|] eqn:E; cbn [bind]; try discriminate.
    intros [= ->]. apply sort_imports_raises in E. destruct E; discriminate.
  - split; [split; reflexivity | split; discriminate].
  - split; [split; discriminate | split; [reflexivity | discriminate]].
Qed.

End Atomic.

Lemma atomic_validation_witness :
  sorted_imports Stub.unchanged 9 (L "x = 1") "py" (Stub.atomically false) false None
    false []
  = (final <- sort_imports Stub.unchanged (Stub.atomically false) "py" 9
                (io_lines (L "x = 1")) ;;
     Returns (output_stream final)).
Proof.
  apply (proj2 (proj2 (atomic_validation Stub.unchanged 9 (L "x = 1") "py"
                         (Stub.atomically false) false None false []
                         (Stub.atomically false) false eq_refl eq_refl eq_refl))).
  reflexivity.
Defined.
